(** * CTFd/__init__.py: template resolution and the startup version gate

    A shallow embedding of [ThemeLoader.get_source], [confirm_upgrade],
    [run_upgrade] and [create_app] of [CTFd/__init__.py], with the Python
    pieces they rest on ([str] methods, [distutils.version.StrictVersion],
    exceptions, truthiness).

    Effects are explicit: a computation takes the state of the world
    (configuration store, database, standard input) and returns a result or
    a raised exception, the new world, and the ordered list of external
    events it performed. *)

From Stdlib Require Import ZArith NArith Ascii String List Bool Lia.
From stdpp Require Import base option gmap strings pretty.

Local Open Scope string_scope.
Local Open Scope list_scope.

(** ** Python values and exceptions *)

(** The exceptions that can travel through this module. [OtherError] stands
    for whatever a collaborator (database layer, template loader) raises. *)
Inductive exn : Type :=
| TemplateNotFound (name : string)
| TypeError (msg : string)
| ValueError (msg : string)
| EOFError
| SystemExit (code : option Z)
| OtherError (msg : string).

Inductive result (A : Type) : Type :=
| Ok (a : A)
| Raise (e : exn).
Arguments Ok {A} a.
Arguments Raise {A} e.

(** The status with which the interpreter ends when [e] is not caught:
    [SystemExit(None)] is status 0, [SystemExit(n)] is [n], any other
    exception prints a traceback and gives status 1. *)
Definition exit_status (e : exn) : Z :=
  match e with
  | SystemExit None => 0
  | SystemExit (Some n) => n
  | _ => 1
  end.

(** A value read from the configuration store: [None] or a [str]. *)
Definition pyval : Type := option string.

(** Python truthiness of such a value: [None] and [''] are false. *)
Definition truthy (v : pyval) : bool :=
  match v with
  | None => false
  | Some EmptyString => false
  | Some (String _ _) => true
  end.

(** ** [str] methods used by the module

    A string is a sequence of characters with code points 0 to 255, each
    [ascii] being the character of that code point. *)

(** [s.startswith(p)] *)
Definition startswith (s p : string) : bool := String.prefix p s.

(** [s[n:]] *)
Fixpoint slice_from (n : nat) (s : string) : string :=
  match n, s with
  | O, _ => s
  | S _, EmptyString => EmptyString
  | S n', String _ s' => slice_from n' s'
  end.

(** [sep.join(items)]: every item must be a [str]; the first one that is
    not raises [TypeError]. *)
Fixpoint join_strs (sep : string) (items : list string) : string :=
  match items with
  | [] => EmptyString
  | [x] => x
  | x :: rest => x +:+ sep +:+ join_strs sep rest
  end.

(** The items as strings, or the index of the first one that is [None]. *)
Fixpoint all_str (i : nat) (items : list pyval) : list string + nat :=
  match items with
  | [] => inl []
  | Some x :: rest =>
      match all_str (S i) rest with
      | inl xs => inl (x :: xs)
      | inr j => inr j
      end
  | None :: _ => inr i
  end.

Definition join_type_error (i : nat) : exn :=
  TypeError ("sequence item " +:+ pretty i
             +:+ ": expected str instance, NoneType found").

Definition str_join (sep : string) (items : list pyval) : result string :=
  match all_str 0 items with
  | inl xs => Ok (join_strs sep xs)
  | inr i => Raise (join_type_error i)
  end.

(** [s.lower()]: on the code points 0 to 255 the characters that change
    are A to Z (65 to 90) and the capital letters 192 to 222 other than the
    multiplication sign 215; each goes 32 up. *)
Definition lower_char (c : ascii) : ascii :=
  let n := nat_of_ascii c in
  if ((65 <=? n)%nat && (n <=? 90)%nat)
     || ((192 <=? n)%nat && (n <=? 222)%nat && negb (n =? 215)%nat)
  then ascii_of_nat (n + 32) else c.

Fixpoint lower (s : string) : string :=
  match s with
  | EmptyString => EmptyString
  | String c s' => String (lower_char c) (lower s')
  end.

(** [s.strip()]: the characters of code point 0 to 255 for which
    [str.isspace] holds are TAB, LF, VT, FF, CR (9 to 13), FS, GS, RS, US
    and the space (28 to 32), NEL (133) and the no-break space (160). *)
Definition is_space (c : ascii) : bool :=
  let n := nat_of_ascii c in
  ((9 <=? n)%nat && (n <=? 13)%nat) || ((28 <=? n)%nat && (n <=? 32)%nat)
  || (n =? 133)%nat || (n =? 160)%nat.

Fixpoint lstrip (s : string) : string :=
  match s with
  | EmptyString => EmptyString
  | String c s' => if is_space c then lstrip s' else s
  end.

Fixpoint rstrip (s : string) : string :=
  match s with
  | EmptyString => EmptyString
  | String c s' =>
      match rstrip s' with
      | EmptyString => if is_space c then EmptyString else String c EmptyString
      | r => String c r
      end
  end.

Definition strip (s : string) : string := rstrip (lstrip s).

(** ** [distutils.version.StrictVersion] *)

Definition is_digit (c : ascii) : bool :=
  let n := nat_of_ascii c in (48 <=? n)%nat && (n <=? 57)%nat.

(** The longest prefix of digits, and what follows it: a greedy [\d+]. *)
Fixpoint span_digits (s : string) : string * string :=
  match s with
  | EmptyString => (EmptyString, EmptyString)
  | String c s' =>
      if is_digit c
      then let (d, r) := span_digits s' in (String c d, r)
      else (EmptyString, s)
  end.

(** [int(d)] for a string of digits. *)
Fixpoint int_of_digits_from (acc : N) (d : string) : N :=
  match d with
  | EmptyString => acc
  | String c d' =>
      int_of_digits_from (acc * 10 + (N.of_nat (nat_of_ascii c) - 48))%N d'
  end.

Definition int_of_digits (d : string) : N := int_of_digits_from 0%N d.

(** A parsed version: the three numbers, and the pre-release tag if any. *)
Record StrictVersion : Type := mkStrictVersion {
  version : N * N * N;
  prerelease : option (ascii * N)
}.

Definition newline : string := String (ascii_of_nat 10) EmptyString.

(** The groups [(1, 2, 4, 5, 6)] of
    [^(\d+) \. (\d+) (\. (\d+))? ([ab](\d+))?$] (verbose, ASCII) on [s];
    [$] also matches before a final newline. Each [\d+] is followed by a
    character that is not a digit, so the greedy reading is the only one. *)
Definition version_re_match (s : string)
  : option (string * string * option string * option (ascii * string)) :=
  match span_digits s with
  | (EmptyString, _) => None
  | (major, String "."%char r2) =>
      match span_digits r2 with
      | (EmptyString, _) => None
      | (minor, r3) =>
          let '(patch, r5) :=
            match r3 with
            | String "."%char r4 =>
                match span_digits r4 with
                | (EmptyString, _) => (None, r3)
                | (p, r) => (Some p, r)
                end
            | _ => (None, r3)
            end in
          let '(pre, r7) :=
            match r5 with
            | String c r6 =>
                if Ascii.eqb c "a" || Ascii.eqb c "b"
                then match span_digits r6 with
                     | (EmptyString, _) => (None, r5)
                     | (n, r) => (Some (c, n), r)
                     end
                else (None, r5)
            | EmptyString => (None, r5)
            end in
          if String.eqb r7 EmptyString || String.eqb r7 newline
          then Some (major, minor, patch, pre)
          else None
      end
  | _ => None
  end.

(** [StrictVersion(vstring)], that is [StrictVersion.parse]. *)
Definition StrictVersion_parse (vstring : string) : result StrictVersion :=
  match version_re_match vstring with
  | None => Raise (ValueError ("invalid version number '" +:+ vstring +:+ "'"))
  | Some (major, minor, patch, pre) =>
      Ok {| version :=
              match patch with
              | Some p => (int_of_digits major, int_of_digits minor, int_of_digits p)
              | None => (int_of_digits major, int_of_digits minor, 0%N)
              end;
            prerelease :=
              match pre with
              | Some (c, n) => Some (c, int_of_digits n)
              | None => None
              end |}
  end.

(** Tuple comparison, as Python orders tuples. *)
Definition version_ltb (v w : N * N * N) : bool :=
  let '(a, b, c) := v in
  let '(a', b', c') := w in
  (a <? a')%N
  || ((a =? a')%N && ((b <? b')%N || ((b =? b')%N && (c <? c')%N))).

Definition version_eqb (v w : N * N * N) : bool :=
  let '(a, b, c) := v in
  let '(a', b', c') := w in
  (a =? a')%N && (b =? b')%N && (c =? c')%N.

Definition prerelease_eqb (p q : ascii * N) : bool :=
  Ascii.eqb (fst p) (fst q) && (snd p =? snd q)%N.

Definition prerelease_ltb (p q : ascii * N) : bool :=
  (nat_of_ascii (fst p) <? nat_of_ascii (fst q))%nat
  || (Ascii.eqb (fst p) (fst q) && (snd p <? snd q)%N).

(** [StrictVersion._cmp] *)
Definition StrictVersion_cmp (self other : StrictVersion) : Z :=
  if negb (version_eqb (version self) (version other)) then
    if version_ltb (version self) (version other) then (-1)%Z else 1%Z
  else
    match prerelease self, prerelease other with
    | None, None => 0%Z
    | Some _, None => (-1)%Z
    | None, Some _ => 1%Z
    | Some p, Some q =>
        if prerelease_eqb p q then 0%Z
        else if prerelease_ltb p q then (-1)%Z else 1%Z
    end.

(** [self < other] *)
Definition StrictVersion_lt (self other : StrictVersion) : bool :=
  (StrictVersion_cmp self other <? 0)%Z.

(** ** The world, events and the effect monad *)

(** What [get_source] returns third: jinja2 expects a callable (or [None]);
    [ThemeLoader] gives the constant [True] for an overridden template. *)
Inductive uptodate : Type :=
| UptodateConst (b : bool)
| UptodateCallable (filename : string) (mtime : Z).

(** [(source, filename, uptodate)] *)
Definition source_tuple : Type := string * string * uptodate.

(** External effects, in the order they happen. *)
Inductive event : Type :=
| EvGetConfig (key : string)
| EvSetConfig (key value : string)
| EvIsatty
| EvPrint (line : string)
| EvInput (prompt : string) (answer : option string)
| EvCreateAll
| EvStamp
| EvUpgrade
| EvLoad (template : string)
| EvCall (name : string).

(** The database layer ([CTFd.models.db], [CTFd.utils.migrations]) acts on
    a database state [DB]; each operation gives the state it leaves behind
    and the exception it raised, if any. It is taken as an interface. *)
Class Migrations (DB : Type) : Type := {
  create_all_db : DB -> option exn * DB;
  stamp_db : DB -> option exn * DB;
  upgrade_db : DB -> option exn * DB
}.

(** jinja2's [FileSystemLoader.get_source], the method [ThemeLoader] calls
    through [super]: what it gives for a search path and a template name.
    jinja2 is a library outside this repository, so the method is taken as
    an interface; it sees the name it is called with and nothing else of
    the request. *)
Class BaseLoader : Type := {
  FileSystemLoader_get_source : list string -> string -> result source_tuple
}.

Record World (DB : Type) : Type := mkWorld {
  config : gmap string string;   (* the configuration store *)
  db : DB;                       (* the database behind [db] and alembic *)
  drivername : string;           (* [create_database().drivername] *)
  stdin_isatty : bool;           (* [sys.stdin.isatty()] *)
  stdin_lines : list string      (* the lines [input] will read *)
}.
Arguments mkWorld {DB}.
Arguments config {DB}.
Arguments db {DB}.
Arguments drivername {DB}.
Arguments stdin_isatty {DB}.
Arguments stdin_lines {DB}.

Definition M (DB A : Type) : Type :=
  World DB -> result A * World DB * list event.

Definition ret {DB A} (a : A) : M DB A := fun w => (Ok a, w, []).

Definition raise {DB A} (e : exn) : M DB A := fun w => (Raise e, w, []).

Definition bind {DB A B} (m : M DB A) (k : A -> M DB B) : M DB B :=
  fun w =>
    match m w with
    | (Ok a, w1, t1) =>
        match k a w1 with
        | (r, w2, t2) => (r, w2, t1 ++ t2)
        end
    | (Raise e, w1, t1) => (Raise e, w1, t1)
    end.

Declare Scope py_scope.
Delimit Scope py_scope with py.
Notation "x <- m ;; k" := (bind m (fun x => k))
  (at level 100, m at next level, right associativity) : py_scope.
Notation "m ;>> k" := (bind m (fun _ => k))
  (at level 100, right associativity) : py_scope.
Local Open Scope py_scope.

Definition emit {DB} (e : event) : M DB unit := fun w => (Ok tt, w, [e]).

(** The three projections of a run. *)
Definition outcome {DB A} (x : result A * World DB * list event) : result A :=
  fst (fst x).
Definition final {DB A} (x : result A * World DB * list event) : World DB :=
  snd (fst x).
Definition trace {DB A} (x : result A * World DB * list event) : list event :=
  snd x.

(** ** Collaborators *)

Section Collaborators.
Context {DB : Type} `{Migrations DB}.

Definition with_config (w : World DB) (c : gmap string string) : World DB :=
  mkWorld c (db w) (drivername w) (stdin_isatty w) (stdin_lines w).

Definition with_db (w : World DB) (d : DB) : World DB :=
  mkWorld (config w) d (drivername w) (stdin_isatty w) (stdin_lines w).

Definition with_stdin (w : World DB) (l : list string) : World DB :=
  mkWorld (config w) (db w) (drivername w) (stdin_isatty w) l.

Definition lift {A} (r : result A) : M DB A :=
  match r with
  | Ok a => ret a
  | Raise e => raise e
  end.

(** Modelled from the spec: [utils.get_config], which is not part of this
    file; the configuration store exposes [get(key) -> value | absent]. *)
Definition get_config (key : string) : M DB pyval :=
  fun w => (Ok (config w !! key), w, [EvGetConfig key]).

(** Modelled from the spec: [utils.set_config], which is not part of this
    file; the configuration store exposes [set(key, value)]. *)
Definition set_config (key value : string) : M DB unit :=
  fun w => (Ok tt, with_config w (<[key := value]> (config w)),
            [EvSetConfig key value]).

(** [sys.stdin.isatty()] *)
Definition sys_stdin_isatty : M DB bool :=
  fun w => (Ok (stdin_isatty w), w, [EvIsatty]).

(** [print(line)] *)
Definition print (line : string) : M DB unit := emit (EvPrint line).

(** [input(prompt)]: shows the prompt and reads a line, without its
    newline; [EOFError] when there is none. *)
Definition input (prompt : string) : M DB string :=
  fun w =>
    match stdin_lines w with
    | [] => (Raise EOFError, w, [EvInput prompt None])
    | l :: rest => (Ok l, with_stdin w rest, [EvInput prompt (Some l)])
    end.

(** [exit()]: the [site] builtin called with no argument raises
    [SystemExit(None)]. *)
Definition exit {A} : M DB A := raise (SystemExit None).

Definition db_op (ev : event) (op : DB -> option exn * DB) : M DB unit :=
  fun w =>
    match op (db w) with
    | (None, d) => (Ok tt, with_db w d, [ev])
    | (Some e, d) => (Raise e, with_db w d, [ev])
    end.

(** [db.create_all()], [stamp()] and [upgrade()] *)
Definition db_create_all : M DB unit := db_op EvCreateAll create_all_db.
Definition stamp : M DB unit := db_op EvStamp stamp_db.
Definition upgrade : M DB unit := db_op EvUpgrade upgrade_db.

(** [create_database()]: the URL it returns is kept by its driver name. *)
Definition create_database : M DB string :=
  fun w => (Ok (drivername w), w, [EvCall "create_database"]).

(** A call into a collaborator this module only wires up (Flask, the
    cache, the socket layer, blueprints, plugins): recorded, and taken to
    return normally and to leave the persisted version and theme alone.
    What such a call does elsewhere, as a plugin adding overrides to the
    loader, is outside this model: nothing below is stated about it. *)
Definition external (name : string) : M DB unit := emit (EvCall name).

End Collaborators.

(** ** The module *)

Definition __version__ : string := "2.0.0".

(** [ThemeLoader]: the [FileSystemLoader] fields and the override map. *)
Record ThemeLoader : Type := mkThemeLoader {
  searchpath : list string;
  encoding : string;
  followlinks : bool;
  overriden_templates : gmap string string
}.

(** [ThemeLoader.__init__] *)
Definition ThemeLoader_init (path : string) (enc : string) (follow : bool)
  : ThemeLoader :=
  mkThemeLoader [path] enc follow ∅.

(** What [create_app] hands back of the application object. *)
Record App : Type := mkApp {
  jinja_loader : ThemeLoader;
  VERSION : string
}.

Section Program.
Context {DB : Type} `{Migrations DB} `{BaseLoader}.

(** [super(ThemeLoader, self).get_source(environment, template)] *)
Definition super_get_source (self : ThemeLoader) (template : string)
  : M DB source_tuple :=
  emit (EvLoad template) ;>>
  lift (FileSystemLoader_get_source (searchpath self) template).

(** [ThemeLoader.get_source]; [environment] is only passed on to [super],
    which does not look at it. *)
Definition get_source (self : ThemeLoader) (template : string)
  : M DB source_tuple :=
  match overriden_templates self !! template with
  | Some source => ret (source, template, UptodateConst true)
  | None =>
      if startswith template "admin/" then
        let template := slice_from 6 template in
        template <- lift (str_join "/" [Some "admin"; Some "templates";
                                        Some template]) ;;
        super_get_source self template
      else
        theme <- get_config "ctf_theme" ;;
        template <- lift (str_join "/" [theme; Some "templates";
                                        Some template]) ;;
        super_get_source self template
  end.

(** [confirm_upgrade] *)
Definition confirm_upgrade : M DB bool :=
  tty <- sys_stdin_isatty ;;
  if tty then
    print "/*\ CTFd has updated and must update the database! /*\" ;>>
    print "/*\ Please backup your database before proceeding! /*\" ;>>
    print "/*\ CTFd maintainers are not responsible for any data loss! /*\" ;>>
    answer <- input "Run database migrations (Y/N)" ;;
    if String.eqb (strip (lower answer)) "y" then
      ret true
    else
      print "/*\ Ignored database migrations... /*\" ;>>
      ret false
  else
    ret true.

(** [run_upgrade] *)
Definition run_upgrade : M DB unit :=
  upgrade ;>>
  set_config "ctf_version" __version__.

(** The test of line 149,
    [version and (StrictVersion(version) < StrictVersion(running))]:
    [and] does not look at its right side when the left one is false. *)
Definition needs_migration (version : pyval) (running : string)
  : result bool :=
  match version with
  | Some v =>
      if truthy version then
        match StrictVersion_parse v with
        | Ok persisted =>
            match StrictVersion_parse running with
            | Ok current => Ok (StrictVersion_lt persisted current)
            | Raise e => Raise e
            end
        | Raise e => Raise e
        end
      else Ok false
  | None => Ok false
  end.

(** [create_app], lines 103 to 122: the database and its schema. *)
Definition create_app_database : M DB unit :=
  url <- create_database ;;
  external "db.init_app" ;>>
  external "migrations.init_app" ;>>
  if startswith url "sqlite" then
    db_create_all ;>>
    stamp
  else
    upgrade.

(** [create_app], lines 146 to 156: the version gate. *)
Definition create_app_version : M DB unit :=
  version <- get_config "ctf_version" ;;
  behind <- lift (needs_migration version __version__) ;;
  (if behind then
     confirmed <- confirm_upgrade ;;
     if confirmed then run_upgrade else exit
   else ret tt) ;>>
  if negb (truthy version) then
    set_config "ctf_version" __version__
  else ret tt.

(** [create_app], lines 158 and 159: the default theme. *)
Definition create_app_theme : M DB unit :=
  theme <- get_config "ctf_theme" ;;
  if negb (truthy theme) then
    set_config "ctf_theme" "core"
  else ret tt.

(** [create_app]; [root_path] is [app.root_path]. The statements that only
    wire collaborators together are kept as calls, in their order. *)
Definition create_app (root_path : string) : M DB App :=
  external "CTFdFlask" ;>>
  external "app.config.from_object" ;>>
  let theme_loader :=
    ThemeLoader_init (root_path +:+ "/themes") "utf-8" true in
  create_app_database ;>>
  external "ma.init_app" ;>>
  external "cache.init_app" ;>>
  external "socketio.init_app" ;>>
  create_app_version ;>>
  create_app_theme ;>>
  external "update_check" ;>>
  external "init_request_processors" ;>>
  external "init_template_filters" ;>>
  external "init_template_globals" ;>>
  external "app.register_blueprint(views)" ;>>
  external "app.register_blueprint(teams)" ;>>
  external "app.register_blueprint(users)" ;>>
  external "app.register_blueprint(challenges)" ;>>
  external "app.register_blueprint(scoreboard)" ;>>
  external "app.register_blueprint(auth)" ;>>
  external "app.register_blueprint(api)" ;>>
  external "app.register_blueprint(events)" ;>>
  external "app.register_blueprint(admin)" ;>>
  external "app.register_error_handler(404)" ;>>
  external "app.register_error_handler(403)" ;>>
  external "app.register_error_handler(500)" ;>>
  external "app.register_error_handler(502)" ;>>
  external "init_plugins" ;>>
  ret (mkApp theme_loader __version__).

End Program.

(** ** Sample collaborators and worlds *)

(** A database on which every operation succeeds; its state counts the
    runs of [upgrade]. *)
Definition sound_db : Migrations nat :=
  {| create_all_db := fun d => (None, d);
     stamp_db := fun d => (None, d);
     upgrade_db := fun d => (None, S d) |}.

(** A database on which [upgrade] raises. *)
Definition failing_db : Migrations nat :=
  {| create_all_db := fun d => (None, d);
     stamp_db := fun d => (None, d);
     upgrade_db := fun d => (Some (OtherError "migration failed"), d) |}.

(** A base loader over a table of files that behaves as jinja2's does:
    the source of a file it has, [TemplateNotFound(template)] with the name
    it was asked for otherwise. *)
Definition files_loader (files : gmap string string) : BaseLoader :=
  {| FileSystemLoader_get_source := fun sp template =>
       match files !! template with
       | Some source =>
           Ok (source, join_strs "/" (sp ++ [template]),
               UptodateCallable template 0)
       | None => Raise (TemplateNotFound template)
       end |}.

Definition sample_loader : ThemeLoader :=
  mkThemeLoader ["/opt/CTFd/themes"] "utf-8" true
    {[ "admin/config.html" := "<override>" ]}.

Definition sample_files : gmap string string :=
  {[ "core/templates/base.html" := "<core base>";
     "admin/templates/users.html" := "<admin users>" ]}.

(** An installation at version 1.0.0 with an operator who answers [answer]
    at a terminal. *)
Definition upgrade_world (driver answer : string) : World nat :=
  mkWorld {[ "ctf_version" := "1.0.0"; "ctf_theme" := "core" ]}
          0 driver true [answer].

(** A database with an empty configuration store. *)
Definition fresh_world (driver : string) : World nat :=
  mkWorld ∅ 0 driver true [].

(** An installation at a given version with the theme [core]. *)
Definition world_at (version driver : string) (tty : bool)
    (lines : list string) : World nat :=
  mkWorld {[ "ctf_version" := version; "ctf_theme" := "core" ]}
          0 driver tty lines.

(** ** Vocabulary of the statements *)

(** An answer that [confirm_upgrade] takes as a yes. *)
Definition affirmative (answer : string) : bool :=
  String.eqb (strip (lower answer)) "y".

(** A non-empty string of decimal digits. *)
Fixpoint all_digits (s : string) : bool :=
  match s with
  | EmptyString => false
  | String c EmptyString => is_digit c
  | String c s' => is_digit c && all_digits s'
  end.

(** The version string [major.minor.patch]. *)
Definition dotted (major minor patch : string) : string :=
  major +:+ "." +:+ minor +:+ "." +:+ patch.

(** Strictly less under the component-wise ordering of versions: major,
    then minor, then patch. *)
Definition semver_lt (p r : N * N * N) : Prop :=
  let '(pa, pb, pc) := p in
  let '(ra, rb, rc) := r in
  (pa < ra \/ (pa = ra /\ (pb < rb \/ (pb = rb /\ pc < rc))))%N.

Definition is_upgrade (e : event) : bool :=
  match e with
  | EvUpgrade => true
  | _ => false
  end.

Definition is_prompt (e : event) : bool :=
  match e with
  | EvIsatty | EvInput _ _ => true
  | _ => false
  end.

Definition is_config_write (e : event) : bool :=
  match e with
  | EvSetConfig _ _ => true
  | _ => false
  end.

(** How many times [upgrade()] ran in a trace. *)
Definition count_upgrade (tr : list event) : nat :=
  length (List.filter is_upgrade tr).

(** The question of [confirm_upgrade] and its message on a refusal. *)
Definition prompt_question : string := "Run database migrations (Y/N)".

Definition prompt_ignored : string := "/*\ Ignored database migrations... /*\".

(** What [confirm_upgrade] does at a terminal up to the answer. *)
Definition confirm_events (answer : string) : list event :=
  [EvIsatty;
   EvPrint "/*\ CTFd has updated and must update the database! /*\";
   EvPrint "/*\ Please backup your database before proceeding! /*\";
   EvPrint "/*\ CTFd maintainers are not responsible for any data loss! /*\";
   EvInput prompt_question (Some answer)].

(** The calls [create_app] makes around its three phases. *)
Definition calls_before_database : list event :=
  [EvCall "CTFdFlask"; EvCall "app.config.from_object"].

Definition calls_before_version : list event :=
  [EvCall "ma.init_app"; EvCall "cache.init_app"; EvCall "socketio.init_app"].

Definition calls_after_theme : list event :=
  [EvCall "update_check"; EvCall "init_request_processors";
   EvCall "init_template_filters"; EvCall "init_template_globals";
   EvCall "app.register_blueprint(views)";
   EvCall "app.register_blueprint(teams)";
   EvCall "app.register_blueprint(users)";
   EvCall "app.register_blueprint(challenges)";
   EvCall "app.register_blueprint(scoreboard)";
   EvCall "app.register_blueprint(auth)";
   EvCall "app.register_blueprint(api)";
   EvCall "app.register_blueprint(events)";
   EvCall "app.register_blueprint(admin)";
   EvCall "app.register_error_handler(404)";
   EvCall "app.register_error_handler(403)";
   EvCall "app.register_error_handler(500)";
   EvCall "app.register_error_handler(502)";
   EvCall "init_plugins"].

(** ** The rendering environment and further vocabulary *)

(** [SandboxedBaseEnvironment]: the keyword options handed on to
    [SandboxedEnvironment.__init__], and the application kept in [app].
    [V] is the type of the option values, [A] that of the application. *)
Record SandboxedBaseEnvironment (A V : Type) : Type := mkEnvironment {
  env_options : gmap string V;
  env_app : A
}.
Arguments mkEnvironment {A V}.
Arguments env_options {A V}.
Arguments env_app {A V}.

(** [SandboxedBaseEnvironment.__init__(self, app, **options)];
    [create_global_jinja_loader] is the method of the application, a call
    that is recorded when it is made. *)
Definition SandboxedBaseEnvironment_init {A V : Type}
    (create_global_jinja_loader : A -> V) (app : A)
    (options : gmap string V)
  : SandboxedBaseEnvironment A V * list event :=
  match options !! "loader" with
  | None =>
      (mkEnvironment
         (<["loader" := create_global_jinja_loader app]> options) app,
       [EvCall "app.create_global_jinja_loader"])
  | Some _ => (mkEnvironment options app, [])
  end.

(** The loader after [self.overriden_templates[name] = source]. *)
Definition with_override (self : ThemeLoader) (name source : string)
  : ThemeLoader :=
  mkThemeLoader (searchpath self) (encoding self) (followlinks self)
    (<[name := source]> (overriden_templates self)).

Definition is_terminal_io (e : event) : bool :=
  match e with
  | EvPrint _ | EvInput _ _ => true
  | _ => false
  end.

Definition is_config_access (e : event) : bool :=
  match e with
  | EvGetConfig _ | EvSetConfig _ _ => true
  | _ => false
  end.

(** The pre-release version string [major.minor.patch] followed by the tag
    ([a] or [b]) and its number. *)
Definition tagged (major minor patch tag number : string) : string :=
  major +:+ "." +:+ minor +:+ "." +:+ patch +:+ tag +:+ number.

(** The events of the database phase: calls and schema operations. *)
Definition is_database_event (e : event) : bool :=
  match e with
  | EvCall _ | EvCreateAll | EvStamp | EvUpgrade => true
  | _ => false
  end.

(** The application [create_app] returns for a root path. *)
Definition app_of (root : string) : App :=
  mkApp (ThemeLoader_init (root +:+ "/themes") "utf-8" true) __version__.

(** The message of [StrictVersion] on a string it cannot parse. *)
Definition invalid_version (v : string) : exn :=
  ValueError ("invalid version number '" +:+ v +:+ "'").

(** ** Versions *)

Lemma span_digits_stop (d rest : string) :
  all_digits d = true ->
  match rest with
  | EmptyString => True
  | String c _ => is_digit c = false
  end ->
  span_digits (d +:+ rest) = (d, rest).
Proof.
  intros Hd Hrest.
  induction d as [|c d IH]; [discriminate|].
  destruct d as [|c' d'].
  - cbn [all_digits] in Hd.
    change (String c "" +:+ rest) with (String c rest).
    cbn [span_digits]. rewrite Hd.
    destruct rest as [|c0 r]; [reflexivity|].
    cbn [span_digits]. rewrite Hrest. reflexivity.
  - cbn [all_digits] in Hd. apply andb_prop in Hd as [Hc Hd'].
    change (String c (String c' d') +:+ rest)
      with (String c (String c' d' +:+ rest)).
    cbn [span_digits]. rewrite Hc, (IH Hd'). reflexivity.
Qed.

Lemma append_empty_r (s : string) : s +:+ "" = s.
Proof.
  induction s as [|c s IH]; [reflexivity|].
  change (String c (s +:+ "") = String c s). f_equal. exact IH.
Qed.

Lemma all_digits_nonempty (d : string) :
  all_digits d = true -> exists c d', d = String c d'.
Proof. destruct d; [discriminate | eauto]. Qed.

Lemma version_re_match_dotted (a b c : string) :
  all_digits a = true -> all_digits b = true -> all_digits c = true ->
  version_re_match (dotted a b c) = Some (a, b, Some c, None).
Proof.
  intros Ha Hb Hc. unfold version_re_match, dotted.
  rewrite (span_digits_stop a) by (assumption || reflexivity).
  destruct (all_digits_nonempty a Ha) as (a0 & a' & ->).
  change ("." +:+ b +:+ "." +:+ c) with (String "."%char (b +:+ "." +:+ c)).
  cbv iota beta.
  rewrite (span_digits_stop b) by (assumption || reflexivity).
  destruct (all_digits_nonempty b Hb) as (b0 & b' & ->).
  change ("." +:+ c) with (String "."%char c).
  cbv iota beta.
  replace c with (c +:+ "") at 1 by apply append_empty_r.
  rewrite (span_digits_stop c) by (assumption || exact I).
  destruct (all_digits_nonempty c Hc) as (c0 & c' & ->).
  reflexivity.
Qed.

Lemma StrictVersion_parse_dotted (a b c : string) :
  all_digits a = true -> all_digits b = true -> all_digits c = true ->
  StrictVersion_parse (dotted a b c)
  = Ok {| version := (int_of_digits a, int_of_digits b, int_of_digits c);
          prerelease := None |}.
Proof.
  intros Ha Hb Hc. unfold StrictVersion_parse.
  rewrite version_re_match_dotted by assumption. reflexivity.
Qed.

Lemma version_ltb_semver (p r : N * N * N) :
  version_ltb p r = true <-> semver_lt p r.
Proof.
  destruct p as [[pa pb] pc], r as [[ra rb] rc]. unfold version_ltb, semver_lt.
  rewrite !orb_true_iff, !andb_true_iff, !orb_true_iff, !andb_true_iff,
    !N.ltb_lt, !N.eqb_eq.
  tauto.
Qed.

Lemma StrictVersion_lt_release (p r : N * N * N) :
  StrictVersion_lt (mkStrictVersion p None) (mkStrictVersion r None)
  = version_ltb p r.
Proof.
  unfold StrictVersion_lt, StrictVersion_cmp. cbn [version prerelease].
  destruct p as [[pa pb] pc], r as [[ra rb] rc].
  unfold version_eqb, version_ltb.
  destruct (N.eqb_spec pa ra), (N.eqb_spec pb rb), (N.eqb_spec pc rc);
    destruct (N.ltb_spec pa ra), (N.ltb_spec pb rb), (N.ltb_spec pc rc);
    cbn; try reflexivity; lia.
Qed.

Lemma dotted_truthy (a b c : string) :
  all_digits a = true -> truthy (Some (dotted a b c)) = true.
Proof.
  intros Ha. destruct (all_digits_nonempty a Ha) as (a0 & a' & ->). reflexivity.
Qed.

(** ** Template resolution *)

Lemma startswith_slice (p s : string) :
  startswith s p = true -> s = p +:+ slice_from (String.length p) s.
Proof.
  unfold startswith. revert s.
  induction p as [|a p IH]; intros s Hs; [reflexivity|].
  destruct s as [|b s]; [discriminate|].
  cbn [String.prefix] in Hs.
  destruct (ascii_dec a b) as [->|]; [|discriminate].
  change (String b s = String b (p +:+ slice_from (String.length p) s)).
  f_equal. apply IH, Hs.
Qed.

Section Resolution.
Context {DB : Type} `{BaseLoader}.
Implicit Types (self : ThemeLoader) (w : World DB).

Lemma get_source_admin_eq self (N : string) w :
  overriden_templates self !! N = None ->
  startswith N "admin/" = true ->
  get_source self N w
  = (FileSystemLoader_get_source (searchpath self)
       ("admin/templates/" +:+ slice_from 6 N),
     w, [EvLoad ("admin/templates/" +:+ slice_from 6 N)]).
Proof.
  intros Hov Hadm. unfold get_source. rewrite Hov, Hadm.
  unfold bind, lift, super_get_source, bind, emit, str_join, lift.
  cbn [all_str join_strs ret].
  change ("admin" +:+ "/" +:+ "templates" +:+ "/" +:+ slice_from 6 N)
    with ("admin/templates/" +:+ slice_from 6 N).
  destruct (FileSystemLoader_get_source _ _); reflexivity.
Qed.

Lemma get_source_theme_eq self (N T : string) w :
  overriden_templates self !! N = None ->
  startswith N "admin/" = false ->
  config w !! "ctf_theme" = Some T ->
  get_source self N w
  = (FileSystemLoader_get_source (searchpath self) (T +:+ "/templates/" +:+ N),
     w, [EvGetConfig "ctf_theme"; EvLoad (T +:+ "/templates/" +:+ N)]).
Proof.
  intros Hov Hadm Hth. unfold get_source. rewrite Hov, Hadm.
  unfold bind at 1. unfold get_config. rewrite Hth.
  unfold bind, lift, super_get_source, bind, emit, str_join, lift.
  cbn [all_str join_strs ret].
  change (T +:+ "/" +:+ "templates" +:+ "/" +:+ N)
    with (T +:+ "/templates/" +:+ N).
  destruct (FileSystemLoader_get_source _ _); reflexivity.
Qed.

(** C3. A template reference that is a key of the override map resolves to
    the override's source text, whatever the reference looks like (so also
    when it starts with [admin/] or would fall to the theme rule); the
    name returned is the reference itself and the third component is the
    constant [True]. Neither the configuration store nor the file system
    loader is touched. *)
Theorem get_source_override self (N S : string) w :
  overriden_templates self !! N = Some S ->
  get_source self N w = (Ok (S, N, UptodateConst true), w, []).
Proof.
  intros Hov. unfold get_source. rewrite Hov. reflexivity.
Qed.

(** C6. A reference that has no override and does not start with [admin/]
    is handed to the file system loader as [T/templates/N], where [T] is
    the value of [ctf_theme] in the configuration store at the time of the
    call: the store is read once in every call, and a call made after the
    theme was set to [T'] goes to [T'/templates/N]. *)
Theorem get_source_theme self (N T : string) w :
  overriden_templates self !! N = None ->
  startswith N "admin/" = false ->
  config w !! "ctf_theme" = Some T ->
  get_source self N w
  = (FileSystemLoader_get_source (searchpath self) (T +:+ "/templates/" +:+ N),
     w, [EvGetConfig "ctf_theme"; EvLoad (T +:+ "/templates/" +:+ N)])
  /\ forall T' : string,
       get_source self N (final (set_config "ctf_theme" T' (final (get_source self N w))))
       = (FileSystemLoader_get_source (searchpath self)
            (T' +:+ "/templates/" +:+ N),
          final (set_config "ctf_theme" T' w),
          [EvGetConfig "ctf_theme"; EvLoad (T' +:+ "/templates/" +:+ N)]).
Proof.
  intros Hov Hadm Hth.
  pose proof (get_source_theme_eq self N T w Hov Hadm Hth) as Heq.
  split; [exact Heq|].
  intros T'. rewrite Heq. cbn [final fst snd].
  apply get_source_theme_eq; try assumption.
  cbn [set_config final fst snd with_config config].
  apply lookup_insert_eq.
Qed.

(** C7. A reference that has no override and starts with [admin/] loses
    exactly that one prefix, and what is left, [rest], is handed to the
    file system loader as [admin/templates/rest]. The configuration store
    is not read, and the outcome is the same in every world, whatever the
    active theme. *)
Theorem get_source_admin self (N : string) w :
  overriden_templates self !! N = None ->
  startswith N "admin/" = true ->
  N = "admin/" +:+ slice_from 6 N
  /\ get_source self N w
     = (FileSystemLoader_get_source (searchpath self)
          ("admin/templates/" +:+ slice_from 6 N),
        w, [EvLoad ("admin/templates/" +:+ slice_from 6 N)])
  /\ forall w' : World DB,
       outcome (get_source self N w') = outcome (get_source self N w).
Proof.
  intros Hov Hadm. split; [|split].
  - exact (startswith_slice "admin/" N Hadm).
  - apply get_source_admin_eq; assumption.
  - intros w'. rewrite !get_source_admin_eq by assumption. reflexivity.
Qed.

(** C8, as the code has it. When the file system loader fails on the
    rewritten path, that failure is what resolution raises, unchanged:
    [get_source] does not catch it and has given the loader only the
    rewritten path. With a loader that reports the name it was asked for,
    as jinja2's does, [TemplateNotFound] carries the rewritten path. *)
Theorem get_source_failure_propagates self (N : string) w (e : exn) :
  overriden_templates self !! N = None ->
  (startswith N "admin/" = true /\
   FileSystemLoader_get_source (searchpath self)
     ("admin/templates/" +:+ slice_from 6 N) = Raise e)
  \/ (startswith N "admin/" = false /\
      exists T : string,
        config w !! "ctf_theme" = Some T /\
        FileSystemLoader_get_source (searchpath self)
          (T +:+ "/templates/" +:+ N) = Raise e) ->
  outcome (get_source self N w) = Raise e.
Proof.
  intros Hov [[Hadm Hfs] | [Hadm (T & Hth & Hfs)]].
  - rewrite get_source_admin_eq by assumption. exact Hfs.
  - rewrite (get_source_theme_eq self N T) by assumption. exact Hfs.
Qed.

(** C10. When [ctf_theme] is absent from the configuration store, a
    reference that has no override and does not start with [admin/] does
    not resolve: building the path raises [TypeError], which is neither a
    source nor [TemplateNotFound], and the file system loader is never
    asked. *)
Theorem get_source_no_theme self (N : string) w :
  overriden_templates self !! N = None ->
  startswith N "admin/" = false ->
  config w !! "ctf_theme" = None ->
  get_source self N w
  = (Raise (TypeError "sequence item 0: expected str instance, NoneType found"),
     w, [EvGetConfig "ctf_theme"])
  /\ (forall src : source_tuple, outcome (get_source self N w) <> Ok src)
  /\ (forall name : string,
        outcome (get_source self N w) <> Raise (TemplateNotFound name))
  /\ (forall path : string, EvLoad path ∉ trace (get_source self N w)).
Proof.
  intros Hov Hadm Hth.
  assert (get_source self N w
          = (Raise (TypeError
               "sequence item 0: expected str instance, NoneType found"),
             w, [EvGetConfig "ctf_theme"])) as Heq.
  { unfold get_source. rewrite Hov, Hadm.
    unfold bind at 1. unfold get_config. rewrite Hth. reflexivity. }
  rewrite Heq. cbn [outcome trace fst snd].
  repeat split; try discriminate.
  intros path Hin. apply list_elem_of_singleton in Hin. discriminate.
Qed.

(** X4. Two references can be rewritten to one path: with the theme [admin],
    [x] and [admin/x] both reach the loader as [admin/templates/x]. The
    loader cannot tell which one was asked for, so no loader can make a
    failure carry the original reference in both cases. *)
Lemma get_source_rewrite_collision self (rest : string) w :
  overriden_templates self !! rest = None ->
  overriden_templates self !! ("admin/" +:+ rest) = None ->
  startswith rest "admin/" = false ->
  config w !! "ctf_theme" = Some "admin" ->
  outcome (get_source self rest w)
  = outcome (get_source self ("admin/" +:+ rest) w).
Proof.
  intros Hov Hov' Hadm Hth.
  rewrite (get_source_theme_eq self rest "admin") by assumption.
  rewrite get_source_admin_eq by (assumption || (destruct rest; reflexivity)).
  reflexivity.
Qed.

End Resolution.

(** ** The upgrade and the bootstrap *)

Section Bootstrap.
Context {DB : Type} `{Migrations DB}.
Implicit Types (w : World DB).

Lemma confirm_upgrade_answer w (a : string) (rest : list string) :
  stdin_isatty w = true ->
  stdin_lines w = a :: rest ->
  confirm_upgrade w
  = (Ok (affirmative a), with_stdin w rest,
     confirm_events a ++ (if affirmative a then [] else [EvPrint prompt_ignored])).
Proof.
  intros Htty Hin.
  unfold confirm_upgrade, bind at 1. unfold sys_stdin_isatty. rewrite Htty.
  unfold bind, print, emit, input. rewrite Hin.
  fold (affirmative a). destruct (affirmative a); reflexivity.
Qed.

Lemma confirm_upgrade_detached w :
  stdin_isatty w = false ->
  confirm_upgrade w = (Ok true, w, [EvIsatty]).
Proof.
  intros Htty.
  unfold confirm_upgrade, bind at 1. unfold sys_stdin_isatty. rewrite Htty.
  reflexivity.
Qed.

Lemma run_upgrade_eq w :
  run_upgrade w
  = match upgrade_db (db w) with
    | (None, d) =>
        (Ok tt,
         with_config (with_db w d) (<["ctf_version" := __version__]> (config w)),
         [EvUpgrade; EvSetConfig "ctf_version" __version__])
    | (Some e, d) => (Raise e, with_db w d, [EvUpgrade])
    end.
Proof.
  unfold run_upgrade, bind, upgrade, db_op, set_config.
  destruct (upgrade_db (db w)) as [[e|] d]; reflexivity.
Qed.

Lemma needs_migration_truthy (v : pyval) (r : string) :
  needs_migration v r = Ok true -> truthy v = true.
Proof.
  unfold needs_migration. destruct v as [s|]; [|discriminate].
  destruct (truthy (Some s)); [reflexivity | discriminate].
Qed.

(** The version gate when the persisted version is not behind. *)
Lemma create_app_version_current w :
  needs_migration (config w !! "ctf_version") __version__ = Ok false ->
  create_app_version w
  = if truthy (config w !! "ctf_version")
    then (Ok tt, w, [EvGetConfig "ctf_version"])
    else (Ok tt,
          with_config w (<["ctf_version" := __version__]> (config w)),
          [EvGetConfig "ctf_version"; EvSetConfig "ctf_version" __version__]).
Proof.
  intros Hgate.
  unfold create_app_version, bind at 1. unfold get_config.
  unfold bind at 1. rewrite Hgate. unfold lift, ret.
  unfold bind. destruct (truthy (config w !! "ctf_version")); reflexivity.
Qed.

(** The version gate when the persisted version is behind and the operator
    answers at a terminal. *)
Lemma create_app_version_answer w (a : string) (rest : list string) :
  needs_migration (config w !! "ctf_version") __version__ = Ok true ->
  stdin_isatty w = true ->
  stdin_lines w = a :: rest ->
  create_app_version w
  = if affirmative a then
      match upgrade_db (db w) with
      | (None, d) =>
          (Ok tt,
           with_config (with_db (with_stdin w rest) d)
             (<["ctf_version" := __version__]> (config w)),
           EvGetConfig "ctf_version" :: confirm_events a
             ++ [EvUpgrade; EvSetConfig "ctf_version" __version__])
      | (Some e, d) =>
          (Raise e, with_db (with_stdin w rest) d,
           EvGetConfig "ctf_version" :: confirm_events a ++ [EvUpgrade])
      end
    else
      (Raise (SystemExit None), with_stdin w rest,
       EvGetConfig "ctf_version" :: confirm_events a ++ [EvPrint prompt_ignored]).
Proof.
  intros Hgate Htty Hin.
  pose proof (needs_migration_truthy _ _ Hgate) as Htruthy.
  unfold create_app_version, bind at 1. unfold get_config.
  unfold bind at 1. rewrite Hgate. unfold lift, ret.
  unfold bind at 1. unfold bind at 1.
  rewrite (confirm_upgrade_answer w a rest Htty Hin).
  destruct (affirmative a).
  - rewrite run_upgrade_eq. cbn [with_stdin db config].
    destruct (upgrade_db (db w)) as [[e|] d]; [reflexivity|].
    unfold bind. rewrite Htruthy. reflexivity.
  - reflexivity.
Qed.

(** The version gate when the persisted version is behind and no terminal
    is attached. *)
Lemma create_app_version_detached w :
  needs_migration (config w !! "ctf_version") __version__ = Ok true ->
  stdin_isatty w = false ->
  create_app_version w
  = match upgrade_db (db w) with
    | (None, d) =>
        (Ok tt,
         with_config (with_db w d) (<["ctf_version" := __version__]> (config w)),
         [EvGetConfig "ctf_version"; EvIsatty; EvUpgrade;
          EvSetConfig "ctf_version" __version__])
    | (Some e, d) =>
        (Raise e, with_db w d, [EvGetConfig "ctf_version"; EvIsatty; EvUpgrade])
    end.
Proof.
  intros Hgate Htty.
  pose proof (needs_migration_truthy _ _ Hgate) as Htruthy.
  unfold create_app_version, bind at 1. unfold get_config.
  unfold bind at 1. rewrite Hgate. unfold lift, ret.
  unfold bind at 1. unfold bind at 1.
  rewrite (confirm_upgrade_detached w Htty).
  rewrite run_upgrade_eq.
  destruct (upgrade_db (db w)) as [[e|] d]; [reflexivity|].
  unfold bind. rewrite Htruthy. reflexivity.
Qed.

Lemma create_app_theme_eq w :
  create_app_theme w
  = if truthy (config w !! "ctf_theme")
    then (Ok tt, w, [EvGetConfig "ctf_theme"])
    else (Ok tt, with_config w (<["ctf_theme" := "core"]> (config w)),
          [EvGetConfig "ctf_theme"; EvSetConfig "ctf_theme" "core"]).
Proof.
  unfold create_app_theme, bind, get_config.
  destruct (truthy (config w !! "ctf_theme")); reflexivity.
Qed.

(** After lines 158 and 159 a theme is configured. *)
Lemma create_app_theme_configures w :
  truthy (config (final (create_app_theme w)) !! "ctf_theme") = true.
Proof.
  rewrite create_app_theme_eq.
  destruct (truthy (config w !! "ctf_theme")) eqn:Ht; cbn [final fst snd].
  - exact Ht.
  - cbn [with_config config]. rewrite lookup_insert_eq. reflexivity.
Qed.

(** The database phase leaves the configuration store and the standard
    input alone, asks nothing, and runs [upgrade] never on a sqlite driver
    and once on any other. *)
Lemma create_app_database_frame w :
  let x := create_app_database w in
  config (final x) = config w
  /\ stdin_isatty (final x) = stdin_isatty w
  /\ stdin_lines (final x) = stdin_lines w
  /\ Forall (fun e => is_prompt e = false /\ is_config_write e = false) (trace x)
  /\ count_upgrade (trace x)
     = (if startswith (drivername w) "sqlite" then 0 else 1)%nat.
Proof.
  unfold create_app_database, bind at 1. unfold create_database.
  unfold bind, external, emit, db_create_all, stamp, upgrade, db_op.
  cbn [drivername db with_db].
  destruct (startswith (drivername w) "sqlite").
  - destruct (create_all_db (db w)) as [[e|] d1]; cbn [db with_db].
    + repeat split; repeat constructor.
    + destruct (stamp_db d1) as [[e|] d2]; repeat split; repeat constructor.
  - destruct (upgrade_db (db w)) as [[e|] d]; repeat split; repeat constructor.
Qed.

(** [create_app] as the sequence of its phases. *)
Lemma create_app_phases (root : string) w :
  create_app root w
  = match create_app_database w with
    | (Raise e, w1, t1) => (Raise e, w1, calls_before_database ++ t1)
    | (Ok _, w1, t1) =>
        match create_app_version w1 with
        | (Raise e, w2, t2) =>
            (Raise e, w2,
             calls_before_database ++ t1 ++ calls_before_version ++ t2)
        | (Ok _, w2, t2) =>
            (Ok (mkApp (ThemeLoader_init (root +:+ "/themes") "utf-8" true)
                       __version__),
             final (create_app_theme w2),
             calls_before_database ++ t1 ++ calls_before_version ++ t2
               ++ trace (create_app_theme w2) ++ calls_after_theme)
        end
    end.
Proof.
  unfold create_app, bind, external, emit.
  destruct (create_app_database w) as [[[[]|e] w1] t1]; [|reflexivity].
  destruct (create_app_version w1) as [[[[]|e] w2] t2]; [|reflexivity].
  rewrite create_app_theme_eq.
  destruct (truthy (config w2 !! "ctf_theme")); reflexivity.
Qed.

End Bootstrap.

Lemma count_upgrade_app (t1 t2 : list event) :
  count_upgrade (t1 ++ t2) = (count_upgrade t1 + count_upgrade t2)%nat.
Proof.
  unfold count_upgrade. rewrite List.filter_app, length_app. reflexivity.
Qed.

Section Startup.
Context {DB : Type} `{Migrations DB}.
Implicit Types (w : World DB).

(** Once the test of the gate is true, the gate is the upgrade path: the
    read of the version, [confirm_upgrade], and then [run_upgrade] on a yes
    and [exit()] on a no. *)
Lemma create_app_version_behind w :
  needs_migration (config w !! "ctf_version") __version__ = Ok true ->
  create_app_version w
  = (version <- get_config "ctf_version" ;;
     confirmed <- confirm_upgrade ;;
     if confirmed then run_upgrade else exit) w.
Proof.
  intros Hgate.
  pose proof (needs_migration_truthy _ _ Hgate) as Htruthy.
  unfold create_app_version, bind, get_config.
  rewrite Hgate. unfold lift, ret, exit, raise. cbv beta iota.
  destruct (confirm_upgrade w) as [[[[|]|e] w0] t0]; try reflexivity.
  destruct (run_upgrade w0) as [[[[]|e] w1] t1]; [|reflexivity].
  rewrite Htruthy. cbn [negb]. rewrite app_nil_r. reflexivity.
Qed.

(** Once the test of the gate is true, [confirm_upgrade] is entered: its
    first act, the terminal check, is in the trace. *)
Lemma gate_entered w :
  needs_migration (config w !! "ctf_version") __version__ = Ok true ->
  EvIsatty ∈ trace (create_app_version w).
Proof.
  intros Hrun.
  destruct (stdin_isatty w) eqn:Htty.
  - destruct (stdin_lines w) as [|a rest] eqn:Hin.
    + unfold create_app_version, bind at 1. unfold get_config.
      unfold bind at 1. rewrite Hrun. unfold lift, ret.
      unfold bind at 1. unfold bind at 1.
      unfold confirm_upgrade, bind at 1. unfold sys_stdin_isatty.
      rewrite Htty. unfold bind, print, emit, input. rewrite Hin.
      cbn [trace snd]. set_solver.
    + rewrite (create_app_version_answer w a rest Hrun Htty Hin).
      unfold confirm_events.
      destruct (affirmative a);
        [destruct (upgrade_db (db w)) as [[e|] d]|]; cbn [trace snd];
        set_solver.
  - rewrite (create_app_version_detached w Hrun Htty).
    destruct (upgrade_db (db w)) as [[e|] d]; cbn [trace snd]; set_solver.
Qed.

(** C5. In [run_upgrade] the persisted version is written only after
    [upgrade()] has returned: when it returns, the trace is the upgrade
    followed by the write and the store then holds the running version;
    when it raises, that exception ends [run_upgrade], nothing is written
    and the configuration store is as it was. *)
Theorem run_upgrade_atomic w :
  let x := run_upgrade w in
  (fst (upgrade_db (db w)) = None ->
     outcome x = Ok tt
     /\ trace x = [EvUpgrade; EvSetConfig "ctf_version" __version__]
     /\ config (final x) !! "ctf_version" = Some __version__)
  /\ (forall e : exn, fst (upgrade_db (db w)) = Some e ->
        outcome x = Raise e
        /\ trace x = [EvUpgrade]
        /\ config (final x) = config w).
Proof.
  cbv zeta. rewrite run_upgrade_eq.
  destruct (upgrade_db (db w)) as [[e|] d]; cbn [fst]; split.
  - discriminate.
  - intros e' [= <-]. repeat split.
  - intros _. repeat split. cbn [final fst snd with_config config].
    apply lookup_insert_eq.
  - discriminate.
Qed.

(** C2. For version strings [a.b.c] and [a'.b'.c'] of decimal numbers, the
    test of the version gate is true exactly when [(a, b, c)] is strictly
    less than [(a', b', c')], major first, then minor, then patch; with no
    persisted version it is false. In [create_app], with the running
    version [__version__], the confirmation and upgrade path is entered
    exactly when the test is true, and the gate is then that path and
    nothing else: after the read of the version it runs [confirm_upgrade],
    and then [run_upgrade] on a yes and [exit()] on a no. So [upgrade()]
    runs when no terminal is attached and when the answer at the terminal
    is affirmative, and on any other answer the gate ends with
    [SystemExit] and no upgrade. When the persisted version equals or
    exceeds the running one the gate does nothing more than read the
    version, and start-up goes on. *)
Theorem version_gate_decides (a b c a' b' c' : string) w :
  all_digits a = true -> all_digits b = true -> all_digits c = true ->
  all_digits a' = true -> all_digits b' = true -> all_digits c' = true ->
  config w !! "ctf_version" = Some (dotted a b c) ->
  let p := (int_of_digits a, int_of_digits b, int_of_digits c) in
  let r := (int_of_digits a', int_of_digits b', int_of_digits c') in
  needs_migration None (dotted a' b' c') = Ok false
  /\ (needs_migration (Some (dotted a b c)) (dotted a' b' c') = Ok true
      <-> semver_lt p r)
  /\ (needs_migration (Some (dotted a b c)) (dotted a' b' c') = Ok false
      <-> ~ semver_lt p r)
  /\ (EvIsatty ∈ trace (create_app_version w) <-> semver_lt p (2, 0, 0)%N)
  /\ (~ semver_lt p (2, 0, 0)%N ->
      create_app_version w = (Ok tt, w, [EvGetConfig "ctf_version"]))
  /\ (forall w0 : World DB,
        config w0 !! "ctf_version" = None ->
        (EvIsatty ∉ trace (create_app_version w0))
        /\ (EvUpgrade ∉ trace (create_app_version w0)))
  /\ (semver_lt p (2, 0, 0)%N ->
      create_app_version w
      = (version <- get_config "ctf_version" ;;
         confirmed <- confirm_upgrade ;;
         if confirmed then run_upgrade else exit) w)
  /\ (semver_lt p (2, 0, 0)%N ->
      (stdin_isatty w = false -> EvUpgrade ∈ trace (create_app_version w))
      /\ (forall (answer : string) (rest : list string),
            stdin_isatty w = true ->
            stdin_lines w = answer :: rest ->
            (affirmative answer = true ->
               EvUpgrade ∈ trace (create_app_version w))
            /\ (affirmative answer = false ->
                  outcome (create_app_version w) = Raise (SystemExit None)
                  /\ (EvUpgrade ∉ trace (create_app_version w))))).
Proof.
  intros Ha Hb Hc Ha' Hb' Hc' Hcfg p r.
  assert (forall w0 : World DB,
            config w0 !! "ctf_version" = None ->
            (EvIsatty ∉ trace (create_app_version w0))
            /\ (EvUpgrade ∉ trace (create_app_version w0))) as Habsent.
  { intros w0 Hw0. rewrite create_app_version_current by (rewrite Hw0; reflexivity).
    rewrite Hw0. cbn [truthy trace snd].
    split; intros Hin; apply list_elem_of_In in Hin; cbn in Hin;
      intuition discriminate. }
  assert (forall x y z, all_digits x = true -> all_digits y = true ->
            all_digits z = true ->
            needs_migration (Some (dotted a b c)) (dotted x y z)
            = Ok (version_ltb p (int_of_digits x, int_of_digits y,
                                 int_of_digits z))) as Hgate.
  { intros x y z Hx Hy Hz. unfold needs_migration.
    rewrite dotted_truthy by assumption.
    rewrite !StrictVersion_parse_dotted by assumption.
    rewrite StrictVersion_lt_release. reflexivity. }
  split; [reflexivity|].
  rewrite (Hgate a' b' c') by assumption. fold r.
  pose proof (version_ltb_semver p r) as Hr.
  pose proof (version_ltb_semver p (2, 0, 0)%N) as Hrun_lt.
  split; [|split].
  - destruct (version_ltb p r); split; intros Hx.
    + apply Hr. reflexivity.
    + reflexivity.
    + discriminate.
    + apply Hr in Hx. discriminate.
  - destruct (version_ltb p r); split; intros Hx.
    + discriminate.
    + exfalso. apply Hx, Hr. reflexivity.
    + intros Hlt. apply Hr in Hlt. discriminate.
    + reflexivity.
  - assert (needs_migration (config w !! "ctf_version") __version__
            = Ok (version_ltb p (2, 0, 0)%N)) as Hrun.
    { rewrite Hcfg. exact (Hgate "2" "0" "0" eq_refl eq_refl eq_refl). }
    enough ((EvIsatty ∈ trace (create_app_version w)
             <-> semver_lt p (2, 0, 0)%N)
            /\ (~ semver_lt p (2, 0, 0)%N ->
                create_app_version w = (Ok tt, w, [EvGetConfig "ctf_version"])))
      as [Hiff Hcur].
    { split; [exact Hiff|]. split; [exact Hcur|]. split; [exact Habsent|].
      split; intros Hlt; apply Hrun_lt in Hlt; rewrite Hlt in Hrun.
      - exact (create_app_version_behind w Hrun).
      - split.
        + intros Htty. rewrite (create_app_version_detached w Hrun Htty).
          destruct (upgrade_db (db w)) as [[e|] d]; cbn [trace snd];
            apply list_elem_of_In; cbn; tauto.
        + intros answer rest Htty Hin.
          rewrite (create_app_version_answer w answer rest Hrun Htty Hin).
          unfold confirm_events. split; intros Hans; rewrite Hans.
          * destruct (upgrade_db (db w)) as [[e|] d]; cbn [trace snd];
              apply list_elem_of_In; cbn; tauto.
          * cbn [outcome trace fst snd]. split; [reflexivity|].
            intros Hx. apply list_elem_of_In in Hx. cbn in Hx.
            intuition discriminate. }
    destruct (version_ltb p (2, 0, 0)%N) eqn:Hlt.
    + split.
      * split; [intros _; apply Hrun_lt; reflexivity|]. intros _.
        apply (gate_entered w Hrun).
      * intros Hn. exfalso. apply Hn, Hrun_lt. reflexivity.
    + rewrite (create_app_version_current w Hrun).
      rewrite Hcfg, dotted_truthy by assumption.
      split.
      * cbn [trace snd]. split.
        -- intros Hin. apply list_elem_of_singleton in Hin. discriminate.
        -- intros Hx. apply Hrun_lt in Hx. discriminate.
      * reflexivity.
Qed.

(** A run of [create_app] whose database phase succeeds. *)
Lemma create_app_after_database (root : string) w :
  outcome (create_app_database w) = Ok tt ->
  exists (w1 : World DB) (t1 : list event),
    create_app_database w = (Ok tt, w1, t1)
    /\ config w1 = config w
    /\ stdin_isatty w1 = stdin_isatty w
    /\ stdin_lines w1 = stdin_lines w
    /\ Forall (fun e => is_prompt e = false /\ is_config_write e = false) t1
    /\ count_upgrade t1 = (if startswith (drivername w) "sqlite" then 0 else 1)%nat
    /\ create_app root w
       = match create_app_version w1 with
         | (Raise e, w2, t2) =>
             (Raise e, w2,
              calls_before_database ++ t1 ++ calls_before_version ++ t2)
         | (Ok _, w2, t2) =>
             (Ok (mkApp (ThemeLoader_init (root +:+ "/themes") "utf-8" true)
                        __version__),
              final (create_app_theme w2),
              calls_before_database ++ t1 ++ calls_before_version ++ t2
                ++ trace (create_app_theme w2) ++ calls_after_theme)
         end.
Proof.
  intros Hdb.
  pose proof (create_app_database_frame w) as Hframe. cbv zeta in Hframe.
  pose proof (create_app_phases root w) as Hrun.
  destruct (create_app_database w) as [[r1 w1] t1].
  cbn [outcome final trace fst snd] in Hdb, Hframe. subst r1.
  destruct Hframe as (Hc & Ht & Hl & Hf & Hu).
  exists w1, t1. repeat split; assumption.
Qed.

Lemma create_app_theme_keeps_version w :
  config (final (create_app_theme w)) !! "ctf_version"
  = config w !! "ctf_version"
  /\ Forall (fun e => is_prompt e = false /\ is_upgrade e = false)
       (trace (create_app_theme w)).
Proof.
  rewrite create_app_theme_eq.
  destruct (truthy (config w !! "ctf_theme")); cbn [final trace fst snd].
  - split; [reflexivity | repeat constructor].
  - split; [|repeat constructor].
    cbn [with_config config]. apply lookup_insert_ne. discriminate.
Qed.

Lemma count_upgrade_none (t : list event) :
  Forall (fun e => is_upgrade e = false) t -> count_upgrade t = 0%nat.
Proof.
  unfold count_upgrade. induction 1 as [|e t He _ IH]; [reflexivity|].
  cbn [List.filter]. rewrite He. exact IH.
Qed.

(** C9. On a fresh install (no persisted version) whose database phase
    succeeds, [create_app] returns the application and the persisted
    version is then the running version: the version gate reads the
    version and writes the running one, nothing else. Nothing is asked of
    the operator in the whole run, and no [upgrade()] runs from the version
    gate on. *)
Theorem create_app_fresh_install (root : string) w :
  config w !! "ctf_version" = None ->
  outcome (create_app_database w) = Ok tt ->
  let x := create_app root w in
  let w1 := final (create_app_database w) in
  (exists app : App, outcome x = Ok app)
  /\ config (final x) !! "ctf_version" = Some __version__
  /\ Forall (fun e => is_prompt e = false) (trace x)
  /\ count_upgrade (trace x) = count_upgrade (trace (create_app_database w))
  /\ create_app_version w1
     = (Ok tt, with_config w1 (<["ctf_version" := __version__]> (config w1)),
        [EvGetConfig "ctf_version"; EvSetConfig "ctf_version" __version__]).
Proof.
  intros Hcfg Hdb. cbv zeta.
  destruct (create_app_after_database root w Hdb)
    as (w1 & t1 & Hd & Hc & _ & _ & Hf & _ & Hrun).
  rewrite Hrun, Hd. cbn [final fst snd].
  assert (create_app_version w1
          = (Ok tt, with_config w1 (<["ctf_version" := __version__]> (config w1)),
             [EvGetConfig "ctf_version"; EvSetConfig "ctf_version" __version__]))
    as Hv.
  { rewrite create_app_version_current; rewrite Hc, Hcfg; reflexivity. }
  rewrite Hv.
  set (w2 := with_config w1 (<["ctf_version" := __version__]> (config w1))).
  destruct (create_app_theme_keeps_version w2) as [Hkeep Htheme].
  cbn [outcome final trace fst snd].
  split; [eauto|]. split; [|split; [|split; [|reflexivity]]].
  - rewrite Hkeep. subst w2. cbn [with_config config]. apply lookup_insert_eq.
  - repeat (apply Forall_app; split); try (repeat constructor).
    + eapply Forall_impl; [exact Hf|]. intros e [He _]. exact He.
    + eapply Forall_impl; [exact Htheme|]. intros e [He _]. exact He.
  - rewrite !count_upgrade_app.
    rewrite (count_upgrade_none (trace (create_app_theme w2))).
    + cbn. lia.
    + eapply Forall_impl; [exact Htheme|]. intros e [_ He]. exact He.
Qed.

(** C1, as the code has it. On an in-place upgrade at a terminal, with a
    database phase that succeeded, the run reaches the question. Up to the
    answer the configuration store has not been written, and [upgrade()]
    has run never on a sqlite driver and exactly once, in the database
    phase, on any other. The upgrade of [run_upgrade] comes only after an
    affirmative answer; after any other answer only the refusal message
    follows, the run ends with [SystemExit] and the configuration store is
    as it was. *)
Theorem create_app_confirmation_gate (root : string) w (a : string)
    (rest : list string) :
  needs_migration (config w !! "ctf_version") __version__ = Ok true ->
  stdin_isatty w = true ->
  stdin_lines w = a :: rest ->
  outcome (create_app_database w) = Ok tt ->
  let x := create_app root w in
  exists pre post : list event,
    trace x = pre ++ EvInput prompt_question (Some a) :: post
    /\ Forall (fun e => is_config_write e = false) pre
    /\ count_upgrade pre
       = (if startswith (drivername w) "sqlite" then 0 else 1)%nat
    /\ (affirmative a = true -> exists post', post = EvUpgrade :: post')
    /\ (affirmative a = false ->
          post = [EvPrint prompt_ignored]
          /\ outcome x = Raise (SystemExit None)
          /\ config (final x) = config w).
Proof.
  intros Hgate Htty Hin Hdb. cbv zeta.
  destruct (create_app_after_database root w Hdb)
    as (w1 & t1 & Hd & Hc & Ht & Hl & Hf & Hu & Hrun).
  rewrite <- Hc in Hgate. rewrite <- Ht in Htty. rewrite <- Hl in Hin.
  rewrite Hrun, (create_app_version_answer w1 a rest Hgate Htty Hin).
  exists (calls_before_database ++ t1 ++ calls_before_version
          ++ removelast (EvGetConfig "ctf_version" :: confirm_events a)).
  assert (forall tl : list event,
            calls_before_database ++ t1 ++ calls_before_version
              ++ EvGetConfig "ctf_version" :: confirm_events a ++ tl
            = (calls_before_database ++ t1 ++ calls_before_version
               ++ removelast (EvGetConfig "ctf_version" :: confirm_events a))
              ++ EvInput prompt_question (Some a) :: tl) as Hsplit.
  { intros tl. rewrite <- !app_assoc. reflexivity. }
  assert (Forall (fun e => is_config_write e = false)
            (calls_before_database ++ t1 ++ calls_before_version
             ++ removelast (EvGetConfig "ctf_version" :: confirm_events a)))
    as Hpre.
  { repeat (apply Forall_app; split); try (repeat constructor).
    eapply Forall_impl; [exact Hf|]. intros e [_ He]. exact He. }
  assert (count_upgrade
            (calls_before_database ++ t1 ++ calls_before_version
             ++ removelast (EvGetConfig "ctf_version" :: confirm_events a))
          = (if startswith (drivername w) "sqlite" then 0 else 1)%nat) as Hcount.
  { rewrite !count_upgrade_app, Hu. cbn. lia. }
  destruct (affirmative a).
  - destruct (upgrade_db (db w1)) as [[e|] d]; cbn [trace snd].
    + exists [EvUpgrade]. rewrite Hsplit.
      split; [reflexivity|]. split; [exact Hpre|]. split; [exact Hcount|].
      split; [eauto | discriminate].
    + match goal with
      | |- context [trace (create_app_theme ?w2)] =>
          exists (EvUpgrade :: EvSetConfig "ctf_version" __version__
                  :: trace (create_app_theme w2) ++ calls_after_theme)
      end.
      rewrite <- Hsplit.
      split; [reflexivity|]. split; [exact Hpre|]. split; [exact Hcount|].
      split; [eauto | discriminate].
  - cbn [trace snd outcome final fst]. exists [EvPrint prompt_ignored].
    rewrite Hsplit.
    split; [reflexivity|]. split; [exact Hpre|]. split; [exact Hcount|].
    split; [discriminate|]. intros _. repeat split. exact Hc.
Qed.

(** C4, as the code has it. With persisted version 1.0.0 (running 2.0.0),
    a terminal attached and an answer that is not affirmative, start-up
    ends with [SystemExit] raised by [exit()] with no argument, which is
    exit status 0, and the persisted version is still 1.0.0. *)
Theorem create_app_upgrade_declined (root : string) w (a : string)
    (rest : list string) :
  config w !! "ctf_version" = Some "1.0.0" ->
  stdin_isatty w = true ->
  stdin_lines w = a :: rest ->
  affirmative a = false ->
  outcome (create_app_database w) = Ok tt ->
  let x := create_app root w in
  outcome x = Raise (SystemExit None)
  /\ (forall e : exn, outcome x = Raise e -> exit_status e = 0%Z)
  /\ config (final x) !! "ctf_version" = Some "1.0.0".
Proof.
  intros Hcfg Htty Hin Hno Hdb. cbv zeta.
  destruct (create_app_after_database root w Hdb)
    as (w1 & t1 & Hd & Hc & Ht & Hl & _ & _ & Hrun).
  rewrite <- Hc in Hcfg. rewrite <- Ht in Htty. rewrite <- Hl in Hin.
  assert (needs_migration (config w1 !! "ctf_version") __version__ = Ok true)
    as Hgate by (rewrite Hcfg; reflexivity).
  rewrite Hrun, (create_app_version_answer w1 a rest Hgate Htty Hin), Hno.
  cbn [outcome final fst snd with_stdin config].
  repeat split; [|exact Hcfg].
  intros e [= <-]. reflexivity.
Qed.

End Startup.

(** ** The statements at sample inputs *)

Lemma get_source_override_witness :
  overriden_templates sample_loader !! "admin/config.html" = Some "<override>"
  /\ @get_source nat (files_loader sample_files) sample_loader
       "admin/config.html" (upgrade_world "sqlite" "N")
     = (Ok ("<override>", "admin/config.html", UptodateConst true),
        upgrade_world "sqlite" "N", []).
Proof.
  split; [reflexivity|].
  apply (@get_source_override nat (files_loader sample_files)). reflexivity.
Defined.

Lemma get_source_theme_witness :
  overriden_templates sample_loader !! "base.html" = None
  /\ startswith "base.html" "admin/" = false
  /\ config (upgrade_world "sqlite" "N") !! "ctf_theme" = Some "core"
  /\ @get_source nat (files_loader sample_files) sample_loader "base.html"
       (upgrade_world "sqlite" "N")
     = (Ok ("<core base>", "/opt/CTFd/themes/core/templates/base.html",
            UptodateCallable "core/templates/base.html" 0),
        upgrade_world "sqlite" "N",
        [EvGetConfig "ctf_theme"; EvLoad "core/templates/base.html"]).
Proof.
  do 3 (split; [reflexivity|]).
  apply (@get_source_theme nat (files_loader sample_files) sample_loader
           "base.html" "core" (upgrade_world "sqlite" "N"));
    reflexivity.
Defined.

Lemma get_source_admin_witness :
  overriden_templates sample_loader !! "admin/admin/users.html" = None
  /\ startswith "admin/admin/users.html" "admin/" = true
  /\ @get_source nat (files_loader sample_files) sample_loader
       "admin/admin/users.html" (upgrade_world "sqlite" "N")
     = (Raise (TemplateNotFound "admin/templates/admin/users.html"),
        upgrade_world "sqlite" "N",
        [EvLoad "admin/templates/admin/users.html"]).
Proof.
  do 2 (split; [reflexivity|]).
  apply (@get_source_admin nat (files_loader sample_files) sample_loader
           "admin/admin/users.html" (upgrade_world "sqlite" "N"));
    reflexivity.
Defined.

Lemma get_source_failure_propagates_witness :
  overriden_templates sample_loader !! "missing.html" = None
  /\ startswith "missing.html" "admin/" = false
  /\ config (upgrade_world "sqlite" "N") !! "ctf_theme" = Some "core"
  /\ @FileSystemLoader_get_source (files_loader sample_files)
       (searchpath sample_loader) "core/templates/missing.html"
     = Raise (TemplateNotFound "core/templates/missing.html")
  /\ outcome (@get_source nat (files_loader sample_files) sample_loader
                "missing.html" (upgrade_world "sqlite" "N"))
     = Raise (TemplateNotFound "core/templates/missing.html").
Proof.
  do 4 (split; [reflexivity|]).
  apply (@get_source_failure_propagates nat (files_loader sample_files)
           sample_loader "missing.html" (upgrade_world "sqlite" "N")).
  - reflexivity.
  - right. split; [reflexivity|]. exists "core". split; reflexivity.
Defined.

Lemma get_source_no_theme_witness :
  overriden_templates sample_loader !! "base.html" = None
  /\ startswith "base.html" "admin/" = false
  /\ config (fresh_world "sqlite") !! "ctf_theme" = None
  /\ @get_source nat (files_loader sample_files) sample_loader "base.html"
       (fresh_world "sqlite")
     = (Raise (TypeError "sequence item 0: expected str instance, NoneType found"),
        fresh_world "sqlite", [EvGetConfig "ctf_theme"]).
Proof.
  do 3 (split; [reflexivity|]).
  apply (@get_source_no_theme nat (files_loader sample_files) sample_loader
           "base.html" (fresh_world "sqlite"));
    reflexivity.
Defined.

Lemma run_upgrade_atomic_witness :
  (fst (@upgrade_db nat sound_db (db (upgrade_world "mysql" "y"))) = None
   /\ config (final (@run_upgrade nat sound_db (upgrade_world "mysql" "y")))
        !! "ctf_version" = Some "2.0.0")
  /\ (fst (@upgrade_db nat failing_db (db (upgrade_world "mysql" "y")))
      = Some (OtherError "migration failed")
      /\ config (final (@run_upgrade nat failing_db (upgrade_world "mysql" "y")))
         = config (upgrade_world "mysql" "y")).
Proof.
  split; (split; [reflexivity|]).
  - apply (@run_upgrade_atomic nat sound_db (upgrade_world "mysql" "y")).
    reflexivity.
  - apply (proj2 (@run_upgrade_atomic nat failing_db (upgrade_world "mysql" "y"))
             (OtherError "migration failed")).
    reflexivity.
Defined.

Lemma version_gate_decides_witness :
  let w := mkWorld {[ "ctf_version" := "1.9.0" ]} 0 "sqlite" false [] in
  all_digits "1" = true /\ all_digits "9" = true /\ all_digits "0" = true
  /\ all_digits "2" = true
  /\ dotted "1" "9" "0" = "1.9.0" /\ dotted "2" "0" "0" = "2.0.0"
  /\ config w !! "ctf_version" = Some "1.9.0"
  /\ (needs_migration (Some "1.9.0") "2.0.0" = Ok true
      <-> semver_lt (1, 9, 0)%N (2, 0, 0)%N)
  /\ @create_app_version nat sound_db w
     = (@bind nat _ _ (get_config "ctf_version")
          (fun _ => @bind nat _ _ confirm_upgrade
             (fun confirmed => if confirmed then @run_upgrade nat sound_db
                               else exit))) w.
Proof.
  cbv zeta. do 7 (split; [reflexivity|]).
  pose proof (@version_gate_decides nat sound_db "1" "9" "0" "2" "0" "0"
                (mkWorld {[ "ctf_version" := "1.9.0" ]} 0 "sqlite" false [])
                eq_refl eq_refl eq_refl eq_refl eq_refl eq_refl eq_refl)
    as (_ & Hiff & _ & _ & _ & _ & Hpath & _).
  split; [exact Hiff|]. apply Hpath. apply Hiff. reflexivity.
Defined.

Lemma create_app_fresh_install_witness :
  config (fresh_world "postgres") !! "ctf_version" = None
  /\ outcome (@create_app_database nat sound_db (fresh_world "postgres")) = Ok tt
  /\ config (final (@create_app nat sound_db "/opt/CTFd" (fresh_world "postgres")))
       !! "ctf_version" = Some "2.0.0".
Proof.
  do 2 (split; [reflexivity|]).
  apply (@create_app_fresh_install nat sound_db "/opt/CTFd"
           (fresh_world "postgres"));
    reflexivity.
Defined.

Lemma create_app_confirmation_gate_witness :
  let w := upgrade_world "sqlite" "N" in
  let x := @create_app nat sound_db "/opt/CTFd" w in
  needs_migration (config w !! "ctf_version") __version__ = Ok true
  /\ stdin_isatty w = true
  /\ stdin_lines w = ["N"]
  /\ outcome (@create_app_database nat sound_db w) = Ok tt
  /\ exists pre post : list event,
       trace x = pre ++ EvInput prompt_question (Some "N") :: post
       /\ Forall (fun e => is_config_write e = false) pre
       /\ count_upgrade pre = 0%nat
       /\ (affirmative "N" = true -> exists post', post = EvUpgrade :: post')
       /\ (affirmative "N" = false ->
             post = [EvPrint prompt_ignored]
             /\ outcome x = Raise (SystemExit None)
             /\ config (final x) = config w).
Proof.
  cbv zeta. do 4 (split; [reflexivity|]).
  apply (@create_app_confirmation_gate nat sound_db "/opt/CTFd"
           (upgrade_world "sqlite" "N") "N" []);
    reflexivity.
Defined.

Lemma create_app_upgrade_declined_witness :
  let w := upgrade_world "mysql" "no" in
  let x := @create_app nat sound_db "/opt/CTFd" w in
  config w !! "ctf_version" = Some "1.0.0"
  /\ stdin_isatty w = true
  /\ stdin_lines w = ["no"]
  /\ affirmative "no" = false
  /\ outcome (@create_app_database nat sound_db w) = Ok tt
  /\ (outcome x = Raise (SystemExit None)
      /\ (forall e : exn, outcome x = Raise e -> exit_status e = 0%Z)
      /\ config (final x) !! "ctf_version" = Some "1.0.0").
Proof.
  cbv zeta. do 5 (split; [reflexivity|]).
  exact (@create_app_upgrade_declined nat sound_db "/opt/CTFd"
           (upgrade_world "mysql" "no") "no" []
           eq_refl eq_refl eq_refl eq_refl eq_refl).
Defined.

(** ** Where the code departs from the specification *)

(** C1 as stated fails: on a driver other than sqlite, [upgrade()] has run
    in the database phase before the question is asked, so the schema has
    been migrated although the operator declines. *)
Lemma create_app_migrates_before_answer :
  let w := upgrade_world "mysql" "N" in
  let x := @create_app nat sound_db "/opt/CTFd" w in
  needs_migration (config w !! "ctf_version") __version__ = Ok true
  /\ stdin_isatty w = true
  /\ affirmative "N" = false
  /\ outcome x = Raise (SystemExit None)
  /\ (exists pre post : list event,
        trace x = pre ++ EvInput prompt_question (Some "N") :: post
        /\ EvUpgrade ∈ pre)
  /\ db w = 0%nat
  /\ db (final x) = 1%nat.
Proof.
  cbv zeta. repeat split; try reflexivity.
  exists (take 14 (trace (@create_app nat sound_db "/opt/CTFd"
                            (upgrade_world "mysql" "N")))),
         [EvPrint prompt_ignored].
  split; [reflexivity|].
  apply list_elem_of_In. vm_compute. tauto.
Qed.

(** C4 as stated fails: the declined upgrade ends with [SystemExit(None)],
    which is exit status 0, not a non-zero one. *)
Lemma declined_upgrade_exit_status_zero :
  let x := @create_app nat sound_db "/opt/CTFd" (upgrade_world "sqlite" "N") in
  outcome x = Raise (SystemExit None)
  /\ exit_status (SystemExit None) = 0%Z
  /\ ~ (exists e : exn, outcome x = Raise e /\ exit_status e <> 0%Z).
Proof.
  cbv zeta. split; [reflexivity|]. split; [reflexivity|].
  intros (e & He & Hne). vm_compute in He. injection He as <-.
  apply Hne. reflexivity.
Qed.

(** C8 as stated fails: the loader cannot find the rewritten path and
    [TemplateNotFound] carries that rewritten path, not the reference that
    was asked for, under the admin rule and under the theme rule alike. *)
Lemma get_source_not_found_names_rewritten_path :
  let w := upgrade_world "sqlite" "N" in
  let admin := @get_source nat (files_loader sample_files) sample_loader
                 "admin/nope.html" w in
  let themed := @get_source nat (files_loader sample_files) sample_loader
                  "nope.html" w in
  sample_files !! "admin/templates/nope.html" = None
  /\ outcome admin = Raise (TemplateNotFound "admin/templates/nope.html")
  /\ outcome admin <> Raise (TemplateNotFound "admin/nope.html")
  /\ sample_files !! "core/templates/nope.html" = None
  /\ outcome themed = Raise (TemplateNotFound "core/templates/nope.html")
  /\ outcome themed <> Raise (TemplateNotFound "nope.html").
Proof.
  cbv zeta. repeat split; try reflexivity; vm_compute; discriminate.
Qed.

(** ** More on template resolution *)

Section ResolutionFrame.
Context {DB : Type} `{BaseLoader}.
Implicit Types (self : ThemeLoader) (w : World DB).

Lemma get_source_override_eq self (N S : string) w :
  overriden_templates self !! N = Some S ->
  get_source self N w = (Ok (S, N, UptodateConst true), w, []).
Proof. intros Hov. unfold get_source. rewrite Hov. reflexivity. Qed.

Lemma get_source_no_theme_eq self (N : string) w :
  overriden_templates self !! N = None ->
  startswith N "admin/" = false ->
  config w !! "ctf_theme" = None ->
  get_source self N w = (Raise (join_type_error 0), w, [EvGetConfig "ctf_theme"]).
Proof.
  intros Hov Hadm Hth. unfold get_source. rewrite Hov, Hadm.
  unfold bind at 1. unfold get_config. rewrite Hth. reflexivity.
Qed.

(** X1. Resolution only reads. Whatever the loader holds, whatever is asked
    and in whatever world, [get_source] leaves the world as it found it;
    it reads the configuration store at most once, and then the key
    [ctf_theme]; it asks the file system loader at most once, after that
    read. *)
Theorem get_source_read_only self (N : string) w :
  final (get_source self N w) = w
  /\ exists reads loads : list event,
       trace (get_source self N w) = reads ++ loads
       /\ (reads = [] \/ reads = [EvGetConfig "ctf_theme"])
       /\ (loads = [] \/ exists path : string, loads = [EvLoad path]).
Proof.
  destruct (overriden_templates self !! N) as [S|] eqn:Hov.
  - rewrite (get_source_override_eq self N S w Hov).
    split; [reflexivity|]. exists [], [].
    split; [reflexivity|]. split; left; reflexivity.
  - destruct (startswith N "admin/") eqn:Hadm.
    + rewrite (get_source_admin_eq self N w Hov Hadm).
      split; [reflexivity|].
      exists [], [EvLoad ("admin/templates/" +:+ slice_from 6 N)].
      split; [reflexivity|]. split; [left; reflexivity | right; eauto].
    + destruct (config w !! "ctf_theme") as [T|] eqn:Hth.
      * rewrite (get_source_theme_eq self N T w Hov Hadm Hth).
        split; [reflexivity|].
        exists [EvGetConfig "ctf_theme"], [EvLoad (T +:+ "/templates/" +:+ N)].
        split; [reflexivity|]. split; right; eauto.
      * rewrite (get_source_no_theme_eq self N w Hov Hadm Hth).
        split; [reflexivity|]. exists [EvGetConfig "ctf_theme"], [].
        split; [reflexivity|]. split; [right | left]; reflexivity.
Qed.

(** X2. Setting an override. After [overriden_templates[N] = S] the reference
    [N] resolves to [S], whether or not it had an override before (the
    last one set is the one served), and every other reference resolves
    exactly as it did before. *)
Theorem get_source_with_override self (N S N' : string) w :
  N' <> N ->
  get_source (with_override self N S) N w = (Ok (S, N, UptodateConst true), w, [])
  /\ get_source (with_override self N S) N' w = get_source self N' w.
Proof.
  intros Hne. split.
  - apply get_source_override_eq. cbn [with_override overriden_templates].
    apply lookup_insert_eq.
  - unfold get_source. cbn [with_override overriden_templates searchpath].
    rewrite lookup_insert_ne by congruence. reflexivity.
Qed.

(** X3. A loader as [ThemeLoader.__init__] leaves it has no override: every
    reference goes to the file system loader, on the single search path
    given, under the admin rule or under the theme rule. *)
Theorem ThemeLoader_init_resolves (path enc : string) (follow : bool)
    (N T : string) w :
  config w !! "ctf_theme" = Some T ->
  outcome (get_source (ThemeLoader_init path enc follow) N w)
  = FileSystemLoader_get_source [path]
      (if startswith N "admin/"
       then "admin/templates/" +:+ slice_from 6 N
       else T +:+ "/templates/" +:+ N).
Proof.
  intros Hth.
  assert (overriden_templates (ThemeLoader_init path enc follow) !! N = None)
    as Hov by apply lookup_empty.
  destruct (startswith N "admin/") eqn:Hadm.
  - rewrite (get_source_admin_eq _ N w Hov Hadm). reflexivity.
  - rewrite (get_source_theme_eq _ N T w Hov Hadm Hth). reflexivity.
Qed.

End ResolutionFrame.

(** ** The answer to the question *)

Lemma is_space_lower_char (c : ascii) : is_space (lower_char c) = is_space c.
Proof. destruct c as [[] [] [] [] [] [] [] []]; reflexivity. Qed.

Lemma lower_char_y (c : ascii) :
  lower_char c = "y"%char <-> c = "y"%char \/ c = "Y"%char.
Proof.
  destruct c as [[] [] [] [] [] [] [] []]; cbv;
    (split; [intros Hc; first [discriminate Hc | auto] | intros [Hc|Hc]; first [discriminate Hc | reflexivity]]).
Qed.

Lemma lstrip_lower (s : string) : lstrip (lower s) = lower (lstrip s).
Proof.
  induction s as [|c s IH]; [reflexivity|].
  cbn [lower lstrip]. rewrite is_space_lower_char.
  destruct (is_space c); [exact IH | reflexivity].
Qed.

Lemma rstrip_lower (s : string) : rstrip (lower s) = lower (rstrip s).
Proof.
  induction s as [|c s IH]; [reflexivity|].
  cbn [lower rstrip]. rewrite IH, is_space_lower_char.
  destruct (rstrip s) as [|c' r]; cbn [lower].
  - destruct (is_space c); reflexivity.
  - reflexivity.
Qed.

Lemma lower_is_y (s : string) : lower s = "y" <-> s = "y" \/ s = "Y".
Proof.
  destruct s as [|c [|c' s]]; cbn [lower].
  - split; [discriminate | intros [?|?]; discriminate].
  - split.
    + intros [= Hc]. apply lower_char_y in Hc as [->| ->]; auto.
    + intros [[= ->]|[= ->]]; reflexivity.
  - split; [discriminate | intros [?|?]; discriminate].
Qed.

(** X5. [confirm_upgrade] takes an answer as a yes exactly when, with the
    white space around it removed, it is the one letter [y] or [Y]: a word
    such as [yes] is a refusal. *)
Theorem affirmative_iff (answer : string) :
  affirmative answer = true <-> strip answer = "y" \/ strip answer = "Y".
Proof.
  unfold affirmative, strip.
  rewrite lstrip_lower, rstrip_lower, String.eqb_eq.
  apply lower_is_y.
Qed.

(** The no-break space is white space to [strip]: an answer made of it
    and the letter [y] is a yes. *)
Lemma affirmative_no_break_space :
  affirmative (String (ascii_of_nat 160) "y") = true.
Proof. reflexivity. Qed.

(** ** The rendering environment *)

(** X6. [SandboxedBaseEnvironment.__init__] always hands a [loader] option on.
    One that the caller gave is kept, whatever its value, and the global
    loader of the application is then not even built; only when the key is
    missing is that loader built and put in. Every other option is handed
    on untouched, and the application is kept. *)
Theorem SandboxedBaseEnvironment_init_loader {A V : Type}
    (create_global_jinja_loader : A -> V) (app : A)
    (options : gmap string V) :
  let env := fst (SandboxedBaseEnvironment_init create_global_jinja_loader
                    app options) in
  let calls := snd (SandboxedBaseEnvironment_init create_global_jinja_loader
                      app options) in
  is_Some (env_options env !! "loader")
  /\ env_app env = app
  /\ (forall k : string, k <> "loader" ->
        env_options env !! k = options !! k)
  /\ (forall l : V, options !! "loader" = Some l ->
        env_options env = options /\ calls = [])
  /\ (options !! "loader" = None ->
        env_options env !! "loader" = Some (create_global_jinja_loader app)
        /\ calls = [EvCall "app.create_global_jinja_loader"]).
Proof.
  cbv zeta. unfold SandboxedBaseEnvironment_init.
  destruct (options !! "loader") as [l|] eqn:Hl; cbn [fst snd env_options env_app].
  - split; [rewrite Hl; eauto|]. split; [reflexivity|].
    split; [reflexivity|]. split; [auto | discriminate].
  - split; [rewrite lookup_insert_eq; eauto|]. split; [reflexivity|].
    split; [intros k Hk; apply lookup_insert_ne; congruence|].
    split; [discriminate|]. intros _. split; [apply lookup_insert_eq | reflexivity].
Qed.

(** ** Pre-release versions at the gate *)

Lemma version_re_match_tagged (a b c n : string) (t : ascii) :
  all_digits a = true -> all_digits b = true -> all_digits c = true ->
  all_digits n = true ->
  t = "a"%char \/ t = "b"%char ->
  version_re_match (tagged a b c (String t "") n) = Some (a, b, Some c, Some (t, n)).
Proof.
  intros Ha Hb Hc Hn Ht. unfold version_re_match, tagged.
  rewrite (span_digits_stop a) by (assumption || reflexivity).
  destruct (all_digits_nonempty a Ha) as (a0 & a' & ->).
  change ("." +:+ b +:+ "." +:+ c +:+ String t "" +:+ n)
    with (String "."%char (b +:+ "." +:+ c +:+ String t "" +:+ n)).
  cbv iota beta.
  rewrite (span_digits_stop b) by (assumption || reflexivity).
  destruct (all_digits_nonempty b Hb) as (b0 & b' & ->).
  change ("." +:+ c +:+ String t "" +:+ n)
    with (String "."%char (c +:+ String t n)).
  cbv iota beta.
  rewrite (span_digits_stop c)
    by (assumption || (destruct Ht as [-> | ->]; reflexivity)).
  destruct (all_digits_nonempty c Hc) as (c0 & c' & ->).
  cbv iota beta.
  replace (Ascii.eqb t "a" || Ascii.eqb t "b") with true
    by (destruct Ht as [-> | ->]; reflexivity).
  replace n with (n +:+ "") at 1 by apply append_empty_r.
  rewrite (span_digits_stop n) by (assumption || exact I).
  destruct (all_digits_nonempty n Hn) as (n0 & n' & ->).
  reflexivity.
Qed.

Lemma version_eqb_refl (v : N * N * N) : version_eqb v v = true.
Proof.
  destruct v as [[a b] c]. unfold version_eqb. rewrite !N.eqb_refl. reflexivity.
Qed.

(** X7. At the gate a pre-release of a version is behind that version: with
    the persisted version [a.b.c] tagged [a] or [b] (alpha or beta, any
    number) and the running version [a.b.c], the test is true and the
    upgrade path is taken; the other way round it is false. *)
Theorem needs_migration_prerelease (a b c n : string) (t : ascii) :
  all_digits a = true -> all_digits b = true -> all_digits c = true ->
  all_digits n = true ->
  t = "a"%char \/ t = "b"%char ->
  needs_migration (Some (tagged a b c (String t "") n)) (dotted a b c) = Ok true
  /\ needs_migration (Some (dotted a b c)) (tagged a b c (String t "") n)
     = Ok false.
Proof.
  intros Ha Hb Hc Hn Ht.
  assert (StrictVersion_parse (tagged a b c (String t "") n)
          = Ok {| version := (int_of_digits a, int_of_digits b, int_of_digits c);
                  prerelease := Some (t, int_of_digits n) |}) as Htag.
  { unfold StrictVersion_parse.
    rewrite version_re_match_tagged by assumption. reflexivity. }
  assert (truthy (Some (tagged a b c (String t "") n)) = true) as Htr.
  { destruct (all_digits_nonempty a Ha) as (a0 & a' & ->). reflexivity. }
  unfold needs_migration.
  rewrite Htr, dotted_truthy, Htag, StrictVersion_parse_dotted by assumption.
  unfold StrictVersion_lt, StrictVersion_cmp. cbn [version prerelease].
  rewrite version_eqb_refl. split; reflexivity.
Qed.

(** ** More on the bootstrap *)

Section BootstrapCases.
Context {DB : Type} `{Migrations DB}.
Implicit Types (w : World DB).

Lemma create_app_version_invalid w (e : exn) :
  needs_migration (config w !! "ctf_version") __version__ = Raise e ->
  create_app_version w = (Raise e, w, [EvGetConfig "ctf_version"]).
Proof.
  intros Hgate.
  unfold create_app_version, bind at 1. unfold get_config.
  unfold bind at 1. rewrite Hgate. reflexivity.
Qed.

Lemma create_app_version_eof w :
  needs_migration (config w !! "ctf_version") __version__ = Ok true ->
  stdin_isatty w = true ->
  stdin_lines w = [] ->
  create_app_version w
  = (Raise EOFError, w,
     EvGetConfig "ctf_version"
       :: removelast (confirm_events "") ++ [EvInput prompt_question None]).
Proof.
  intros Hgate Htty Hin.
  unfold create_app_version, bind at 1. unfold get_config.
  unfold bind at 1. rewrite Hgate. unfold lift, ret.
  unfold bind at 1. unfold bind at 1.
  unfold confirm_upgrade, bind at 1. unfold sys_stdin_isatty. rewrite Htty.
  unfold bind, print, emit, input. rewrite Hin. reflexivity.
Qed.

(** The database phase: its events are calls and schema operations, and
    it changes nothing but the database. *)
Lemma create_app_database_quiet w :
  let x := create_app_database w in
  Forall (fun e => is_database_event e = true) (trace x)
  /\ config (final x) = config w
  /\ stdin_isatty (final x) = stdin_isatty w
  /\ stdin_lines (final x) = stdin_lines w
  /\ drivername (final x) = drivername w.
Proof.
  unfold create_app_database, bind at 1. unfold create_database.
  unfold bind, external, emit, db_create_all, stamp, upgrade, db_op.
  cbn [drivername db with_db].
  destruct (startswith (drivername w) "sqlite").
  - destruct (create_all_db (db w)) as [[e|] d1]; cbn [db with_db].
    + repeat split; repeat constructor.
    + destruct (stamp_db d1) as [[e|] d2]; repeat split; repeat constructor.
  - destruct (upgrade_db (db w)) as [[e|] d]; repeat split; repeat constructor.
Qed.

(** What a run of the version gate can leave behind: the configuration
    store as it was, or with the running version written; the theme and
    the terminal are not touched. When it returns, the persisted version
    is present and not behind. *)
Lemma create_app_version_summary w :
  let x := create_app_version w in
  stdin_isatty (final x) = stdin_isatty w
  /\ drivername (final x) = drivername w
  /\ config (final x) !! "ctf_theme" = config w !! "ctf_theme"
  /\ ((config (final x) = config w
       /\ (outcome x = Ok tt ->
           needs_migration (config w !! "ctf_version") __version__ = Ok false
           /\ truthy (config w !! "ctf_version") = true))
      \/ (config (final x) = <["ctf_version" := __version__]> (config w)
          /\ outcome x = Ok tt)).
Proof.
  cbv zeta.
  assert (forall c : gmap string string,
            <["ctf_version" := __version__]> c !! "ctf_theme" = c !! "ctf_theme")
    as Hkeep by (intros c; apply lookup_insert_ne; discriminate).
  destruct (needs_migration (config w !! "ctf_version") __version__)
    as [[]|e] eqn:Hgate.
  - destruct (stdin_isatty w) eqn:Htty.
    + destruct (stdin_lines w) as [|a rest] eqn:Hin.
      * rewrite (create_app_version_eof w Hgate Htty Hin).
        cbn [final outcome fst snd]. repeat split; try assumption.
        left. split; [reflexivity | discriminate].
      * rewrite (create_app_version_answer w a rest Hgate Htty Hin).
        destruct (affirmative a).
        -- destruct (upgrade_db (db w)) as [[e|] d];
             cbn [final outcome fst snd with_config with_db with_stdin config
                  stdin_isatty drivername].
           ++ repeat split; try assumption.
              left. split; [reflexivity | discriminate].
           ++ repeat split; try assumption; [apply Hkeep|].
              right. split; reflexivity.
        -- cbn [final outcome fst snd with_stdin config stdin_isatty drivername].
           repeat split; try assumption.
           left. split; [reflexivity | discriminate].
    + rewrite (create_app_version_detached w Hgate Htty).
      destruct (upgrade_db (db w)) as [[e|] d];
        cbn [final outcome fst snd with_config with_db config stdin_isatty
             drivername].
      * repeat split; try assumption.
        left. split; [reflexivity | discriminate].
      * repeat split; try assumption; [apply Hkeep|].
        right. split; reflexivity.
  - rewrite (create_app_version_current w Hgate).
    destruct (truthy (config w !! "ctf_version")) eqn:Htr;
      cbn [final outcome fst snd with_config config stdin_isatty drivername].
    + repeat split. left. split; [reflexivity|]. intros _. split; reflexivity.
    + repeat split; [apply Hkeep|]. right. split; reflexivity.
  - rewrite (create_app_version_invalid w e Hgate).
    cbn [final outcome fst snd]. repeat split.
    left. split; [reflexivity | discriminate].
Qed.

(** A run of [create_app] that returns, taken apart. *)
Lemma create_app_ok_inv (root : string) w (app : App) :
  outcome (create_app root w) = Ok app ->
  exists (w1 w2 : World DB) (t1 t2 : list event),
    create_app_database w = (Ok tt, w1, t1)
    /\ create_app_version w1 = (Ok tt, w2, t2)
    /\ app = app_of root
    /\ final (create_app root w) = final (create_app_theme w2)
    /\ trace (create_app root w)
       = calls_before_database ++ t1 ++ calls_before_version ++ t2
           ++ trace (create_app_theme w2) ++ calls_after_theme.
Proof.
  rewrite create_app_phases.
  destruct (create_app_database w) as [[[[]|e] w1] t1]; [|discriminate].
  destruct (create_app_version w1) as [[[[]|e] w2] t2] eqn:Hv; [|discriminate].
  cbn [outcome final trace fst snd]. intros [= <-].
  exists w1, w2, t1, t2. repeat split. exact Hv.
Qed.

(** A run of [create_app] on a store whose version is present and not
    behind, after a database phase that succeeded. *)
Lemma create_app_current_run (root : string) w (w1 : World DB)
    (t1 : list event) :
  create_app_database w = (Ok tt, w1, t1) ->
  needs_migration (config w !! "ctf_version") __version__ = Ok false ->
  truthy (config w !! "ctf_version") = true ->
  create_app root w
  = (Ok (app_of root), final (create_app_theme w1),
     calls_before_database ++ t1 ++ calls_before_version
       ++ [EvGetConfig "ctf_version"]
       ++ trace (create_app_theme w1) ++ calls_after_theme).
Proof.
  intros Hdb Hgate Htr.
  pose proof (create_app_database_quiet w) as Hq. cbv zeta in Hq.
  rewrite Hdb in Hq. cbn [final trace fst snd] in Hq.
  destruct Hq as (_ & Hc & _).
  rewrite create_app_phases, Hdb.
  rewrite create_app_version_current by (rewrite Hc; exact Hgate).
  rewrite Hc, Htr. reflexivity.
Qed.

End BootstrapCases.

Lemma database_event_quiet (e : event) :
  is_database_event e = true ->
  is_prompt e = false /\ is_config_access e = false
  /\ is_terminal_io e = false /\ is_config_write e = false.
Proof. destruct e; cbn; intros He; try discriminate; repeat split. Qed.

Lemma truthy_some (v : pyval) :
  truthy v = true -> exists s : string, v = Some s /\ s <> "".
Proof.
  destruct v as [[|c s]|]; try discriminate.
  intros _. exists (String c s). split; [reflexivity | discriminate].
Qed.

Section BootstrapResults.
Context {DB : Type} `{Migrations DB}.
Implicit Types (w : World DB).

(** X9. The default theme. When [create_app] returns, a theme that was
    configured is still the configured one, and a store that had no theme,
    or an empty one, now has [core]. *)
Theorem create_app_default_theme (root : string) w (app : App) :
  outcome (create_app root w) = Ok app ->
  config (final (create_app root w)) !! "ctf_theme"
  = if truthy (config w !! "ctf_theme")
    then config w !! "ctf_theme"
    else Some "core".
Proof.
  intros Hok.
  destruct (create_app_ok_inv root w app Hok)
    as (w1 & w2 & t1 & t2 & Hdb & Hv & _ & Hfin & _).
  rewrite Hfin.
  pose proof (create_app_database_quiet w) as Hq. cbv zeta in Hq.
  rewrite Hdb in Hq. cbn [final trace fst snd] in Hq.
  destruct Hq as (_ & Hc1 & _).
  pose proof (create_app_version_summary w1) as Hs. cbv zeta in Hs.
  rewrite Hv in Hs. cbn [final outcome fst snd] in Hs.
  destruct Hs as (_ & _ & Hth & _).
  rewrite create_app_theme_eq, <- Hc1, <- Hth.
  destruct (truthy (config w2 !! "ctf_theme")); cbn [final fst snd].
  - reflexivity.
  - cbn [with_config config]. apply lookup_insert_eq.
Qed.

(** X10. A persisted version that is present and not behind (equal to the
    running one, or newer) is left as it is: given a database phase that
    succeeds, [create_app] returns the application, asks nothing, runs no
    upgrade beyond the database phase, and the persisted version is the
    one it found, not the running one. *)
Theorem create_app_not_behind (root : string) w :
  needs_migration (config w !! "ctf_version") __version__ = Ok false ->
  truthy (config w !! "ctf_version") = true ->
  outcome (create_app_database w) = Ok tt ->
  let x := create_app root w in
  outcome x = Ok (app_of root)
  /\ config (final x) !! "ctf_version" = config w !! "ctf_version"
  /\ Forall (fun e => is_prompt e = false) (trace x)
  /\ count_upgrade (trace x) = count_upgrade (trace (create_app_database w)).
Proof.
  intros Hgate Htr Hdb. cbv zeta.
  pose proof (create_app_database_quiet w) as Hq. cbv zeta in Hq.
  destruct (create_app_database w) as [[r1 w1] t1] eqn:Hrun.
  cbn [outcome final trace fst snd] in Hdb, Hq. subst r1.
  destruct Hq as (Hf & Hc & _).
  rewrite (create_app_current_run root w w1 t1 Hrun Hgate Htr).
  destruct (create_app_theme_keeps_version w1) as [Hkeep Htheme].
  cbn [outcome final trace fst snd].
  split; [reflexivity|]. split; [rewrite Hkeep, Hc; reflexivity|]. split.
  - repeat (apply Forall_app; split); try (repeat constructor).
    + eapply Forall_impl; [exact Hf|]. intros e He.
      apply (database_event_quiet e He).
    + eapply Forall_impl; [exact Htheme|]. intros e [He _]. exact He.
  - rewrite !count_upgrade_app.
    rewrite (count_upgrade_none (trace (create_app_theme w1))).
    + cbn. lia.
    + eapply Forall_impl; [exact Htheme|]. intros e [_ He]. exact He.
Qed.

End BootstrapResults.

Section BootstrapUpgrades.
Context {DB : Type} `{Migrations DB}.
Implicit Types (w : World DB).

(** The version gate after [confirm_upgrade] has said yes, with or without
    a terminal. *)
Lemma create_app_version_confirmed w :
  needs_migration (config w !! "ctf_version") __version__ = Ok true ->
  outcome (confirm_upgrade w) = Ok true ->
  exists (w0 : World DB) (t0 : list event),
    confirm_upgrade w = (Ok true, w0, t0)
    /\ config w0 = config w /\ db w0 = db w
    /\ create_app_version w
       = match upgrade_db (db w) with
         | (None, d) =>
             (Ok tt,
              with_config (with_db w0 d)
                (<["ctf_version" := __version__]> (config w)),
              EvGetConfig "ctf_version" :: t0
                ++ [EvUpgrade; EvSetConfig "ctf_version" __version__])
         | (Some e, d) =>
             (Raise e, with_db w0 d,
              EvGetConfig "ctf_version" :: t0 ++ [EvUpgrade])
         end.
Proof.
  intros Hgate Hyes.
  destruct (stdin_isatty w) eqn:Htty.
  - destruct (stdin_lines w) as [|a rest] eqn:Hin.
    + exfalso. revert Hyes.
      unfold confirm_upgrade, bind at 1. unfold sys_stdin_isatty. rewrite Htty.
      unfold bind, print, emit, input. rewrite Hin. discriminate.
    + rewrite (confirm_upgrade_answer w a rest Htty Hin) in Hyes |- *.
      cbn [outcome fst] in Hyes. injection Hyes as Ha.
      rewrite (create_app_version_answer w a rest Hgate Htty Hin), Ha.
      exists (with_stdin w rest), (confirm_events a ++ []).
      repeat split.
  - rewrite (confirm_upgrade_detached w Htty).
    rewrite (create_app_version_detached w Hgate Htty).
    exists w, [EvIsatty]. repeat split.
Qed.

(** X12. An upgrade that goes through. With a persisted version behind, a
    database phase that succeeds, a yes from [confirm_upgrade] (an
    affirmative answer, or no terminal) and an [upgrade()] that returns,
    [create_app] returns the application and the persisted version is the
    running version. *)
Theorem create_app_upgrade_success (root : string) w :
  needs_migration (config w !! "ctf_version") __version__ = Ok true ->
  outcome (create_app_database w) = Ok tt ->
  let w1 := final (create_app_database w) in
  outcome (confirm_upgrade w1) = Ok true ->
  fst (upgrade_db (db w1)) = None ->
  let x := create_app root w in
  outcome x = Ok (app_of root)
  /\ config (final x) !! "ctf_version" = Some __version__
  /\ count_upgrade (trace x)
     = S (count_upgrade (trace (create_app_database w))).
Proof.
  intros Hgate Hdb. cbv zeta.
  destruct (create_app_after_database root w Hdb)
    as (w1 & t1 & Hd & Hc & _ & _ & _ & _ & Hrun).
  rewrite Hd. cbn [final trace fst snd]. intros Hyes Hup.
  rewrite <- Hc in Hgate.
  destruct (create_app_version_confirmed w1 Hgate Hyes)
    as (w0 & t0 & Hconf & Hc0 & Hd0 & Hv).
  rewrite Hrun, Hv.
  assert (count_upgrade t0 = 0%nat) as Ht0.
  { revert Hconf. destruct (stdin_isatty w1) eqn:Htty.
    - destruct (stdin_lines w1) as [|a rest] eqn:Hin.
      + unfold confirm_upgrade, bind at 1. unfold sys_stdin_isatty. rewrite Htty.
        unfold bind, print, emit, input. rewrite Hin. discriminate.
      + rewrite (confirm_upgrade_answer w1 a rest Htty Hin).
        intros [= _ _ <-]. destruct (affirmative a); reflexivity.
    - rewrite (confirm_upgrade_detached w1 Htty). intros [= _ <-]. reflexivity. }
  destruct (upgrade_db (db w1)) as [[e|] d]; [discriminate|].
  cbn [outcome final trace fst snd].
  set (w2 := with_config (with_db w0 d)
               (<["ctf_version" := __version__]> (config w1))).
  destruct (create_app_theme_keeps_version w2) as [Hkeep Htheme].
  split; [reflexivity|]. split.
  - rewrite Hkeep. subst w2. cbn [with_config config]. apply lookup_insert_eq.
  - change (EvGetConfig "ctf_version" :: t0
              ++ [EvUpgrade; EvSetConfig "ctf_version" __version__])
      with ([EvGetConfig "ctf_version"] ++ t0
              ++ [EvUpgrade; EvSetConfig "ctf_version" __version__]).
    rewrite !count_upgrade_app, Ht0.
    rewrite (count_upgrade_none (trace (create_app_theme w2))).
    + cbn. lia.
    + eapply Forall_impl; [exact Htheme|]. intros e [_ He]. exact He.
Qed.

(** X13. No terminal, no question. With a persisted version behind and the
    standard input not a terminal, [create_app] prints nothing, reads
    nothing from the standard input, and goes on to [run_upgrade]: when
    the database phase and the upgrade succeed it returns the application
    with the running version persisted. *)
Theorem create_app_detached_upgrade (root : string) w :
  needs_migration (config w !! "ctf_version") __version__ = Ok true ->
  stdin_isatty w = false ->
  outcome (create_app_database w) = Ok tt ->
  fst (upgrade_db (db (final (create_app_database w)))) = None ->
  let x := create_app root w in
  outcome x = Ok (app_of root)
  /\ config (final x) !! "ctf_version" = Some __version__
  /\ Forall (fun e => is_terminal_io e = false) (trace x)
  /\ stdin_lines (final x) = stdin_lines w.
Proof.
  intros Hgate Htty Hdb. cbv zeta.
  destruct (create_app_after_database root w Hdb)
    as (w1 & t1 & Hd & Hc & Ht & Hl & _ & _ & Hrun).
  pose proof (create_app_database_quiet w) as Hq. cbv zeta in Hq.
  rewrite Hd in Hq. rewrite Hd. cbn [final trace fst snd] in Hq |- *.
  destruct Hq as (Hf & _). intros Hup.
  rewrite <- Hc in Hgate. rewrite <- Ht in Htty.
  rewrite Hrun, (create_app_version_detached w1 Hgate Htty).
  destruct (upgrade_db (db w1)) as [[e|] d]; [discriminate|].
  cbn [outcome final trace fst snd].
  set (w2 := with_config (with_db w1 d)
               (<["ctf_version" := __version__]> (config w1))).
  destruct (create_app_theme_keeps_version w2) as [Hkeep _].
  split; [reflexivity|]. split; [|split].
  - rewrite Hkeep. subst w2. cbn [with_config config]. apply lookup_insert_eq.
  - rewrite create_app_theme_eq.
    repeat (apply Forall_app; split); try (repeat constructor).
    + eapply Forall_impl; [exact Hf|]. intros e He.
      apply (database_event_quiet e He).
    + destruct (truthy (config w2 !! "ctf_theme")); repeat constructor.
  - rewrite create_app_theme_eq.
    destruct (truthy (config w2 !! "ctf_theme")); exact Hl.
Qed.

(** X14. An upgrade that fails ends the start: when [upgrade()] raises in
    [run_upgrade], [create_app] raises the same exception and returns no
    application; the configuration store is as it was, so the persisted
    version is still the old one and no default theme has been set. *)
Theorem create_app_upgrade_failure (root : string) w (e : exn) :
  needs_migration (config w !! "ctf_version") __version__ = Ok true ->
  outcome (create_app_database w) = Ok tt ->
  let w1 := final (create_app_database w) in
  outcome (confirm_upgrade w1) = Ok true ->
  fst (upgrade_db (db w1)) = Some e ->
  let x := create_app root w in
  outcome x = Raise e
  /\ config (final x) = config w
  /\ Forall (fun ev => is_config_write ev = false) (trace x).
Proof.
  intros Hgate Hdb. cbv zeta.
  destruct (create_app_after_database root w Hdb)
    as (w1 & t1 & Hd & Hc & _ & _ & Hf & _ & Hrun).
  rewrite Hd. cbn [final trace fst snd]. intros Hyes Hup.
  rewrite <- Hc in Hgate.
  destruct (create_app_version_confirmed w1 Hgate Hyes)
    as (w0 & t0 & Hconf & Hc0 & Hd0 & Hv).
  rewrite Hrun, Hv.
  assert (Forall (fun ev => is_config_write ev = false) t0) as Ht0.
  { revert Hconf. destruct (stdin_isatty w1) eqn:Htty.
    - destruct (stdin_lines w1) as [|a rest] eqn:Hin.
      + unfold confirm_upgrade, bind at 1. unfold sys_stdin_isatty. rewrite Htty.
        unfold bind, print, emit, input. rewrite Hin. discriminate.
      + rewrite (confirm_upgrade_answer w1 a rest Htty Hin).
        intros [= _ _ <-]. destruct (affirmative a); repeat constructor.
    - rewrite (confirm_upgrade_detached w1 Htty). intros [= _ <-].
      repeat constructor. }
  destruct (upgrade_db (db w1)) as [[e'|] d]; [|discriminate].
  cbn [fst] in Hup. injection Hup as ->.
  cbn [outcome final trace fst snd with_db config].
  split; [reflexivity|]. split; [rewrite Hc0; exact Hc|].
  change (EvGetConfig "ctf_version" :: t0 ++ [EvUpgrade])
    with ([EvGetConfig "ctf_version"] ++ t0 ++ [EvUpgrade]).
  repeat (apply Forall_app; split); try (repeat constructor); try exact Ht0.
  eapply Forall_impl; [exact Hf|]. intros ev [_ Hev]. exact Hev.
Qed.

End BootstrapUpgrades.

Section BootstrapFailures.
Context {DB : Type} `{Migrations DB}.
Implicit Types (w : World DB).

(** X15. [confirm_upgrade] in full. It never touches the configuration store or
    the database. Without a terminal it says yes at once, printing and
    reading nothing. At a terminal it reads one line: it says no exactly
    when that line is not an affirmative answer, and it raises [EOFError]
    exactly when there is no line to read. *)
Theorem confirm_upgrade_outcomes w :
  let x := confirm_upgrade w in
  config (final x) = config w
  /\ db (final x) = db w
  /\ (stdin_isatty w = false -> x = (Ok true, w, [EvIsatty]))
  /\ (outcome x = Ok false
      <-> stdin_isatty w = true
          /\ exists (a : string) (rest : list string),
               stdin_lines w = a :: rest /\ affirmative a = false)
  /\ (outcome x = Raise EOFError
      <-> stdin_isatty w = true /\ stdin_lines w = []).
Proof.
  cbv zeta. destruct (stdin_isatty w) eqn:Htty.
  - destruct (stdin_lines w) as [|a rest] eqn:Hin.
    + assert (confirm_upgrade w
              = (Raise EOFError, w,
                 removelast (confirm_events "") ++ [EvInput prompt_question None]))
        as ->.
      { unfold confirm_upgrade, bind at 1. unfold sys_stdin_isatty. rewrite Htty.
        unfold bind, print, emit, input. rewrite Hin. reflexivity. }
      cbn [outcome final fst snd].
      split; [reflexivity|]. split; [reflexivity|]. split; [discriminate|].
      split; split; try discriminate; auto.
      intros [_ (a & rest & Hl & _)]. discriminate.
    + rewrite (confirm_upgrade_answer w a rest Htty Hin).
      cbn [outcome final fst snd with_stdin config db].
      split; [reflexivity|]. split; [reflexivity|]. split; [discriminate|].
      split; split.
      * intros [= Ha]. split; [reflexivity|]. exists a, rest. auto.
      * intros [_ (a' & rest' & [= <- _] & Ha)]. rewrite Ha. reflexivity.
      * discriminate.
      * intros [_ Hl]. discriminate.
  - rewrite (confirm_upgrade_detached w Htty).
    cbn [outcome final fst snd].
    split; [reflexivity|]. split; [reflexivity|]. split; [reflexivity|].
    split; split; try discriminate; intros [Hf _]; discriminate.
Qed.

(** X16. A closed standard input at the question. With a persisted version
    behind, a terminal attached but no line to read, [input] raises
    [EOFError] and so does [create_app]: exit status 1, no upgrade beyond
    the database phase, the configuration store as it was. *)
Theorem create_app_prompt_eof (root : string) w :
  needs_migration (config w !! "ctf_version") __version__ = Ok true ->
  stdin_isatty w = true ->
  stdin_lines w = [] ->
  outcome (create_app_database w) = Ok tt ->
  let x := create_app root w in
  outcome x = Raise EOFError
  /\ exit_status EOFError = 1%Z
  /\ config (final x) = config w
  /\ count_upgrade (trace x) = count_upgrade (trace (create_app_database w)).
Proof.
  intros Hgate Htty Hin Hdb. cbv zeta.
  destruct (create_app_after_database root w Hdb)
    as (w1 & t1 & Hd & Hc & Ht & Hl & _ & _ & Hrun).
  rewrite <- Hc in Hgate. rewrite <- Ht in Htty. rewrite <- Hl in Hin.
  rewrite Hrun, Hd, (create_app_version_eof w1 Hgate Htty Hin).
  cbn [outcome final trace fst snd].
  split; [reflexivity|]. split; [reflexivity|]. split; [exact Hc|].
  rewrite !count_upgrade_app. cbn. lia.
Qed.

(** X17. A persisted version that [StrictVersion] cannot parse. When the
    stored version is a non-empty string that is no version number,
    [create_app] raises [ValueError] as soon as it has read it (exit
    status 1): nothing is asked, nothing is written, the store is as it
    was. *)
Theorem create_app_invalid_version (root v : string) w :
  config w !! "ctf_version" = Some v ->
  v <> "" ->
  version_re_match v = None ->
  outcome (create_app_database w) = Ok tt ->
  let x := create_app root w in
  outcome x = Raise (invalid_version v)
  /\ exit_status (invalid_version v) = 1%Z
  /\ config (final x) = config w
  /\ Forall (fun e => is_prompt e = false /\ is_config_write e = false)
       (trace x).
Proof.
  intros Hcfg Hv Hre Hdb. cbv zeta.
  destruct (create_app_after_database root w Hdb)
    as (w1 & t1 & Hd & Hc & _ & _ & Hf & _ & Hrun).
  assert (needs_migration (config w1 !! "ctf_version") __version__
          = Raise (invalid_version v)) as Hgate.
  { rewrite Hc, Hcfg. unfold needs_migration, StrictVersion_parse.
    rewrite Hre. destruct v; [congruence | reflexivity]. }
  rewrite Hrun, (create_app_version_invalid w1 _ Hgate).
  cbn [outcome final trace fst snd].
  split; [reflexivity|]. split; [reflexivity|]. split; [exact Hc|].
  repeat (apply Forall_app; split); try (repeat constructor). exact Hf.
Qed.

(** X18. An empty persisted version counts as none. A store that holds the
    empty string as its version is treated as a fresh install: the string
    is never parsed, nothing is asked, and [create_app] returns with the
    running version written over it. *)
Theorem create_app_empty_version (root : string) w :
  config w !! "ctf_version" = Some "" ->
  outcome (create_app_database w) = Ok tt ->
  let x := create_app root w in
  outcome x = Ok (app_of root)
  /\ config (final x) !! "ctf_version" = Some __version__
  /\ Forall (fun e => is_prompt e = false) (trace x).
Proof.
  intros Hcfg Hdb. cbv zeta.
  destruct (create_app_after_database root w Hdb)
    as (w1 & t1 & Hd & Hc & _ & _ & Hf & _ & Hrun).
  rewrite Hrun.
  rewrite create_app_version_current by (rewrite Hc, Hcfg; reflexivity).
  rewrite Hc, Hcfg. cbn [truthy].
  set (w2 := with_config w1 (<["ctf_version" := __version__]> (config w))).
  destruct (create_app_theme_keeps_version w2) as [Hkeep Htheme].
  cbn [outcome final trace fst snd].
  split; [reflexivity|]. split.
  - rewrite Hkeep. subst w2. cbn [with_config config]. apply lookup_insert_eq.
  - repeat (apply Forall_app; split); try (repeat constructor).
    + eapply Forall_impl; [exact Hf|]. intros e [He _]. exact He.
    + eapply Forall_impl; [exact Htheme|]. intros e [He _]. exact He.
Qed.

(** X19. A database phase that fails ends the start before the configuration
    store is looked at: [create_app] raises the exception of the phase,
    the store is neither read nor written, and nothing is asked. *)
Theorem create_app_database_failure (root : string) w (e : exn) :
  outcome (create_app_database w) = Raise e ->
  let x := create_app root w in
  outcome x = Raise e
  /\ config (final x) = config w
  /\ Forall (fun ev => is_config_access ev = false /\ is_prompt ev = false)
       (trace x).
Proof.
  intros Hdb. cbv zeta.
  pose proof (create_app_database_quiet w) as Hq. cbv zeta in Hq.
  rewrite create_app_phases.
  destruct (create_app_database w) as [[r1 w1] t1].
  cbn [outcome final trace fst snd] in Hdb, Hq. subst r1.
  destruct Hq as (Hf & Hc & _).
  cbn [outcome final trace fst snd].
  split; [reflexivity|]. split; [exact Hc|].
  apply Forall_app; split; [repeat constructor|].
  eapply Forall_impl; [exact Hf|]. intros ev Hev.
  destruct (database_event_quiet ev Hev) as (? & ? & _). auto.
Qed.

(** X20. The two ways of the database phase. On a driver whose name starts
    with [sqlite] the schema is created and then stamped, [stamp()]
    running only when [db.create_all()] has returned, and [upgrade()] does
    not run; on any other driver [upgrade()] runs, once, and neither
    [db.create_all()] nor [stamp()] does. *)
Theorem create_app_database_by_driver w :
  let t := trace (create_app_database w) in
  if startswith (drivername w) "sqlite" then
    count_upgrade t = 0%nat
    /\ EvCreateAll ∈ t
    /\ (EvStamp ∈ t <-> fst (create_all_db (db w)) = None)
  else
    count_upgrade t = 1%nat
    /\ (EvCreateAll ∉ t)
    /\ (EvStamp ∉ t)
    /\ outcome (create_app_database w)
       = match fst (upgrade_db (db w)) with
         | None => Ok tt
         | Some e => Raise e
         end.
Proof.
  cbv zeta.
  unfold create_app_database, bind at 1. unfold create_database.
  unfold bind, external, emit, db_create_all, stamp, upgrade, db_op.
  cbn [drivername db with_db].
  destruct (startswith (drivername w) "sqlite").
  - destruct (create_all_db (db w)) as [[e|] d1]; cbn [db with_db fst].
    + cbn [trace snd app].
      split; [reflexivity|]. split; [apply list_elem_of_In; cbn; tauto|].
      split; [|discriminate].
      intros Hin. apply list_elem_of_In in Hin. cbn in Hin.
      intuition discriminate.
    + destruct (stamp_db d1) as [[e|] d2]; cbn [trace snd app];
        (split; [reflexivity|]; split; [apply list_elem_of_In; cbn; tauto|];
         split; [reflexivity | intros _; apply list_elem_of_In; cbn; tauto]).
  - destruct (upgrade_db (db w)) as [[e|] d]; cbn [trace outcome fst snd app];
      (split; [reflexivity|]; split; [|split; [|reflexivity]];
       intros Hin; apply list_elem_of_In in Hin; cbn in Hin;
       intuition discriminate).
Qed.

End BootstrapFailures.

(** ** The store after the version gate and the default theme *)

Section GateAndTheme.
Context {DB : Type} `{Migrations DB} `{BaseLoader}.
Implicit Types (w : World DB).

Lemma create_app_version_then_theme w :
  outcome (create_app_version w) = Ok tt ->
  let w2 := final (create_app_theme (final (create_app_version w))) in
  needs_migration (config w2 !! "ctf_version") __version__ = Ok false
  /\ truthy (config w2 !! "ctf_version") = true
  /\ truthy (config w2 !! "ctf_theme") = true.
Proof.
  intros Hok. cbv zeta.
  pose proof (create_app_version_summary w) as Hs. cbv zeta in Hs.
  destruct (create_app_theme_keeps_version (final (create_app_version w)))
    as [Hkeep _].
  rewrite Hkeep, create_app_theme_configures.
  destruct Hs as (_ & _ & _ & [[Hc Hpost] | [Hc _]]).
  - rewrite Hc. destruct (Hpost Hok) as [Hg Ht]. auto.
  - rewrite Hc, lookup_insert_eq. repeat split.
Qed.

(** X8. What lines 146 to 159 leave in the configuration store. Whenever
    the version gate returns (rather than raising or exiting), then after
    the default theme has been seen to, the persisted version is present
    and not behind the running version, and a theme that is not empty is
    configured. *)
Theorem version_gate_postcondition w :
  outcome (create_app_version w) = Ok tt ->
  let w2 := final (create_app_theme (final (create_app_version w))) in
  needs_migration (config w2 !! "ctf_version") __version__ = Ok false
  /\ truthy (config w2 !! "ctf_version") = true
  /\ truthy (config w2 !! "ctf_theme") = true.
Proof. exact (create_app_version_then_theme w). Qed.

(** X11. Lines 146 to 159 settle. On the world they leave after a version
    gate that returned, the same lines run again only read: the gate reads
    the version and does nothing else (no question, no upgrade, no write),
    the theme default reads the theme and writes nothing, and the world
    is left as it is. *)
Theorem version_gate_settles w :
  outcome (create_app_version w) = Ok tt ->
  let w2 := final (create_app_theme (final (create_app_version w))) in
  create_app_version w2 = (Ok tt, w2, [EvGetConfig "ctf_version"])
  /\ create_app_theme w2 = (Ok tt, w2, [EvGetConfig "ctf_theme"]).
Proof.
  intros Hok. cbv zeta.
  destruct (create_app_version_then_theme w Hok) as (Hg & Hv & Ht).
  split.
  - rewrite (create_app_version_current _ Hg), Hv. reflexivity.
  - rewrite create_app_theme_eq, Ht. reflexivity.
Qed.

(** X21. Resolution after the default theme. In the world lines 158 and
    159 leave there is a theme [T] that is not empty: the one that was
    configured, or [core]. There every loader resolves every reference
    either to its override or through the file system loader, under the
    admin rule or as [T/templates/N]: the [TypeError] of a missing theme
    cannot happen. *)
Theorem create_app_theme_then_get_source w :
  let w' := final (create_app_theme w) in
  exists T : string,
    config w' !! "ctf_theme" = Some T
    /\ T <> ""
    /\ (config w !! "ctf_theme" = Some T \/ T = "core")
    /\ forall (self : ThemeLoader) (N : string),
         outcome (get_source self N w')
         = match overriden_templates self !! N with
           | Some source => Ok (source, N, UptodateConst true)
           | None =>
               FileSystemLoader_get_source (searchpath self)
                 (if startswith N "admin/"
                  then "admin/templates/" +:+ slice_from 6 N
                  else T +:+ "/templates/" +:+ N)
           end.
Proof.
  cbv zeta.
  pose proof (create_app_theme_configures w) as Hth.
  destruct (truthy_some _ Hth) as (T & HT & Hne).
  exists T. split; [exact HT|]. split; [exact Hne|]. split.
  - revert HT. rewrite create_app_theme_eq.
    destruct (truthy (config w !! "ctf_theme")); cbn [final fst snd].
    + auto.
    + cbn [with_config config]. rewrite lookup_insert_eq.
      intros [= <-]. auto.
  - intros self N.
    destruct (overriden_templates self !! N) as [S|] eqn:Hov.
    + rewrite (get_source_override_eq self N S _ Hov). reflexivity.
    + destruct (startswith N "admin/") eqn:Hadm.
      * rewrite (get_source_admin_eq self N _ Hov Hadm). reflexivity.
      * rewrite (get_source_theme_eq self N T _ Hov Hadm HT). reflexivity.
Qed.

End GateAndTheme.

(** ** The further statements at sample inputs *)

Lemma get_source_with_override_witness :
  "base.html" <> "admin/config.html"
  /\ @get_source nat (files_loader sample_files)
       (with_override sample_loader "admin/config.html" "<second>")
       "admin/config.html" (upgrade_world "sqlite" "N")
     = (Ok ("<second>", "admin/config.html", UptodateConst true),
        upgrade_world "sqlite" "N", [])
  /\ @get_source nat (files_loader sample_files)
       (with_override sample_loader "admin/config.html" "<second>")
       "base.html" (upgrade_world "sqlite" "N")
     = @get_source nat (files_loader sample_files) sample_loader
         "base.html" (upgrade_world "sqlite" "N").
Proof.
  split; [discriminate|].
  apply (@get_source_with_override nat (files_loader sample_files)
           sample_loader "admin/config.html" "<second>" "base.html"
           (upgrade_world "sqlite" "N")).
  discriminate.
Defined.

Lemma ThemeLoader_init_resolves_witness :
  config (upgrade_world "sqlite" "N") !! "ctf_theme" = Some "core"
  /\ outcome (@get_source nat (files_loader sample_files)
                (ThemeLoader_init "/opt/CTFd/themes" "utf-8" true)
                "admin/users.html" (upgrade_world "sqlite" "N"))
     = Ok ("<admin users>", "/opt/CTFd/themes/admin/templates/users.html",
           UptodateCallable "admin/templates/users.html" 0).
Proof.
  split; [reflexivity|].
  exact (@ThemeLoader_init_resolves nat (files_loader sample_files)
           "/opt/CTFd/themes" "utf-8" true "admin/users.html" "core"
           (upgrade_world "sqlite" "N") eq_refl).
Defined.

Lemma get_source_rewrite_collision_witness :
  let w := mkWorld {[ "ctf_theme" := "admin" ]} 0 "sqlite" false [] in
  overriden_templates sample_loader !! "users.html" = None
  /\ overriden_templates sample_loader !! "admin/users.html" = None
  /\ startswith "users.html" "admin/" = false
  /\ config w !! "ctf_theme" = Some "admin"
  /\ outcome (@get_source nat (files_loader sample_files) sample_loader
                "users.html" w)
     = outcome (@get_source nat (files_loader sample_files) sample_loader
                  "admin/users.html" w).
Proof.
  cbv zeta. do 4 (split; [reflexivity|]).
  exact (@get_source_rewrite_collision nat (files_loader sample_files)
           sample_loader "users.html"
           (mkWorld {[ "ctf_theme" := "admin" ]} 0 "sqlite" false [])
           eq_refl eq_refl eq_refl eq_refl).
Defined.

Lemma SandboxedBaseEnvironment_init_loader_witness :
  let given : gmap string (option string) :=
    {[ "loader" := None; "autoescape" := Some "on" ]} in
  let env := fst (SandboxedBaseEnvironment_init
                    (fun app : string => Some ("loader of " +:+ app))
                    "app" given) in
  given !! "loader" = Some None
  /\ env_options env = given
  /\ snd (SandboxedBaseEnvironment_init
            (fun app : string => Some ("loader of " +:+ app)) "app" given)
     = [].
Proof.
  cbv zeta. split; [reflexivity|].
  apply (@SandboxedBaseEnvironment_init_loader string (option string)
           (fun app : string => Some ("loader of " +:+ app)) "app"
           {[ "loader" := None; "autoescape" := Some "on" ]}) with (l := None).
  reflexivity.
Defined.

Lemma needs_migration_prerelease_witness :
  all_digits "2" = true /\ all_digits "0" = true /\ all_digits "1" = true
  /\ tagged "2" "0" "0" "b" "1" = "2.0.0b1"
  /\ needs_migration (Some "2.0.0b1") "2.0.0" = Ok true
  /\ needs_migration (Some "2.0.0") "2.0.0b1" = Ok false.
Proof.
  do 4 (split; [reflexivity|]).
  exact (needs_migration_prerelease "2" "0" "0" "1" "b"
           eq_refl eq_refl eq_refl eq_refl (or_intror eq_refl)).
Defined.

Lemma create_app_default_theme_witness :
  let w := mkWorld {[ "ctf_theme" := "" ]} 0 "sqlite" false [] in
  outcome (@create_app nat sound_db "/opt/CTFd" w) = Ok (app_of "/opt/CTFd")
  /\ config (final (@create_app nat sound_db "/opt/CTFd" w)) !! "ctf_theme"
     = Some "core".
Proof.
  cbv zeta. split; [reflexivity|].
  exact (@create_app_default_theme nat sound_db "/opt/CTFd"
           (mkWorld {[ "ctf_theme" := "" ]} 0 "sqlite" false [])
           (app_of "/opt/CTFd") eq_refl).
Defined.

Lemma create_app_not_behind_witness :
  let w := world_at "3.1.0" "mysql" true [] in
  let x := @create_app nat sound_db "/opt/CTFd" w in
  needs_migration (config w !! "ctf_version") __version__ = Ok false
  /\ truthy (config w !! "ctf_version") = true
  /\ outcome (@create_app_database nat sound_db w) = Ok tt
  /\ (outcome x = Ok (app_of "/opt/CTFd")
      /\ config (final x) !! "ctf_version" = Some "3.1.0"
      /\ Forall (fun e => is_prompt e = false) (trace x)
      /\ count_upgrade (trace x) = 1%nat).
Proof.
  cbv zeta. do 3 (split; [reflexivity|]).
  exact (@create_app_not_behind nat sound_db "/opt/CTFd"
           (world_at "3.1.0" "mysql" true []) eq_refl eq_refl eq_refl).
Defined.

Lemma create_app_upgrade_success_witness :
  let w := upgrade_world "sqlite" " Y " in
  let w1 := final (@create_app_database nat sound_db w) in
  let x := @create_app nat sound_db "/opt/CTFd" w in
  needs_migration (config w !! "ctf_version") __version__ = Ok true
  /\ outcome (@create_app_database nat sound_db w) = Ok tt
  /\ outcome (@confirm_upgrade nat w1) = Ok true
  /\ fst (@upgrade_db nat sound_db (db w1)) = None
  /\ (outcome x = Ok (app_of "/opt/CTFd")
      /\ config (final x) !! "ctf_version" = Some "2.0.0"
      /\ count_upgrade (trace x) = 1%nat).
Proof.
  cbv zeta. do 4 (split; [reflexivity|]).
  exact (@create_app_upgrade_success nat sound_db "/opt/CTFd"
           (upgrade_world "sqlite" " Y ") eq_refl eq_refl eq_refl eq_refl).
Defined.

Lemma create_app_detached_upgrade_witness :
  let w := world_at "1.9.3" "postgres" false ["never read"] in
  let x := @create_app nat sound_db "/opt/CTFd" w in
  needs_migration (config w !! "ctf_version") __version__ = Ok true
  /\ stdin_isatty w = false
  /\ outcome (@create_app_database nat sound_db w) = Ok tt
  /\ fst (@upgrade_db nat sound_db
            (db (final (@create_app_database nat sound_db w)))) = None
  /\ (outcome x = Ok (app_of "/opt/CTFd")
      /\ config (final x) !! "ctf_version" = Some "2.0.0"
      /\ Forall (fun e => is_terminal_io e = false) (trace x)
      /\ stdin_lines (final x) = ["never read"]).
Proof.
  cbv zeta. do 4 (split; [reflexivity|]).
  exact (@create_app_detached_upgrade nat sound_db "/opt/CTFd"
           (world_at "1.9.3" "postgres" false ["never read"])
           eq_refl eq_refl eq_refl eq_refl).
Defined.

Lemma create_app_upgrade_failure_witness :
  let w := upgrade_world "sqlite" "y" in
  let w1 := final (@create_app_database nat failing_db w) in
  let x := @create_app nat failing_db "/opt/CTFd" w in
  needs_migration (config w !! "ctf_version") __version__ = Ok true
  /\ outcome (@create_app_database nat failing_db w) = Ok tt
  /\ outcome (@confirm_upgrade nat w1) = Ok true
  /\ fst (@upgrade_db nat failing_db (db w1))
     = Some (OtherError "migration failed")
  /\ (outcome x = Raise (OtherError "migration failed")
      /\ config (final x) = config w
      /\ Forall (fun ev => is_config_write ev = false) (trace x)).
Proof.
  cbv zeta. do 4 (split; [reflexivity|]).
  exact (@create_app_upgrade_failure nat failing_db "/opt/CTFd"
           (upgrade_world "sqlite" "y") (OtherError "migration failed")
           eq_refl eq_refl eq_refl eq_refl).
Defined.

Lemma confirm_upgrade_outcomes_witness :
  let w := upgrade_world "sqlite" "yes" in
  stdin_isatty w = true
  /\ stdin_lines w = ["yes"]
  /\ affirmative "yes" = false
  /\ outcome (@confirm_upgrade nat w) = Ok false.
Proof.
  cbv zeta. do 3 (split; [reflexivity|]).
  apply (@confirm_upgrade_outcomes nat (upgrade_world "sqlite" "yes")).
  split; [reflexivity|]. exists "yes", []. split; reflexivity.
Defined.

Lemma create_app_prompt_eof_witness :
  let w := world_at "1.0.0" "sqlite" true [] in
  let x := @create_app nat sound_db "/opt/CTFd" w in
  needs_migration (config w !! "ctf_version") __version__ = Ok true
  /\ stdin_isatty w = true
  /\ stdin_lines w = []
  /\ outcome (@create_app_database nat sound_db w) = Ok tt
  /\ (outcome x = Raise EOFError
      /\ exit_status EOFError = 1%Z
      /\ config (final x) = config w
      /\ count_upgrade (trace x) = 0%nat).
Proof.
  cbv zeta. do 4 (split; [reflexivity|]).
  exact (@create_app_prompt_eof nat sound_db "/opt/CTFd"
           (world_at "1.0.0" "sqlite" true []) eq_refl eq_refl eq_refl eq_refl).
Defined.

Lemma create_app_invalid_version_witness :
  let w := world_at "v2.0.0" "sqlite" true ["y"] in
  let x := @create_app nat sound_db "/opt/CTFd" w in
  config w !! "ctf_version" = Some "v2.0.0"
  /\ "v2.0.0" <> ""
  /\ version_re_match "v2.0.0" = None
  /\ outcome (@create_app_database nat sound_db w) = Ok tt
  /\ outcome x = Raise (ValueError "invalid version number 'v2.0.0'").
Proof.
  cbv zeta. split; [reflexivity|]. split; [discriminate|].
  do 2 (split; [reflexivity|]).
  apply (@create_app_invalid_version nat sound_db "/opt/CTFd" "v2.0.0"
           (world_at "v2.0.0" "sqlite" true ["y"]));
    [reflexivity | discriminate | reflexivity | reflexivity].
Defined.

Lemma create_app_empty_version_witness :
  let w := world_at "" "mysql" true ["y"] in
  let x := @create_app nat sound_db "/opt/CTFd" w in
  config w !! "ctf_version" = Some ""
  /\ outcome (@create_app_database nat sound_db w) = Ok tt
  /\ (outcome x = Ok (app_of "/opt/CTFd")
      /\ config (final x) !! "ctf_version" = Some "2.0.0"
      /\ Forall (fun e => is_prompt e = false) (trace x)).
Proof.
  cbv zeta. do 2 (split; [reflexivity|]).
  exact (@create_app_empty_version nat sound_db "/opt/CTFd"
           (world_at "" "mysql" true ["y"]) eq_refl eq_refl).
Defined.

Lemma create_app_database_failure_witness :
  let w := upgrade_world "mysql" "y" in
  let x := @create_app nat failing_db "/opt/CTFd" w in
  outcome (@create_app_database nat failing_db w)
  = Raise (OtherError "migration failed")
  /\ (outcome x = Raise (OtherError "migration failed")
      /\ config (final x) = config w
      /\ Forall (fun ev => is_config_access ev = false /\ is_prompt ev = false)
           (trace x)).
Proof.
  cbv zeta. split; [reflexivity|].
  exact (@create_app_database_failure nat failing_db "/opt/CTFd"
           (upgrade_world "mysql" "y") (OtherError "migration failed") eq_refl).
Defined.

Lemma version_gate_postcondition_witness :
  let w := upgrade_world "mysql" " y" in
  let w2 := final (@create_app_theme nat
                     (final (@create_app_version nat sound_db w))) in
  outcome (@create_app_version nat sound_db w) = Ok tt
  /\ (needs_migration (config w2 !! "ctf_version") __version__ = Ok false
      /\ truthy (config w2 !! "ctf_version") = true
      /\ truthy (config w2 !! "ctf_theme") = true).
Proof.
  cbv zeta. split; [reflexivity|].
  exact (@version_gate_postcondition nat sound_db
           (upgrade_world "mysql" " y") eq_refl).
Defined.

Lemma version_gate_settles_witness :
  let w := fresh_world "sqlite" in
  let w2 := final (@create_app_theme nat
                     (final (@create_app_version nat sound_db w))) in
  outcome (@create_app_version nat sound_db w) = Ok tt
  /\ (@create_app_version nat sound_db w2
      = (Ok tt, w2, [EvGetConfig "ctf_version"])
      /\ @create_app_theme nat w2 = (Ok tt, w2, [EvGetConfig "ctf_theme"])).
Proof.
  cbv zeta. split; [reflexivity|].
  exact (@version_gate_settles nat sound_db (fresh_world "sqlite") eq_refl).
Defined.
